(** * CropSense forecast service: a shallow embedding of
    [src/cropsense/services/gemini-ai.js] (class [GeminiAIService]).

    Modelling choices.
    - JavaScript numbers are kept abstract behind the classes [JsNum],
      [JsMath] and [JsSqrt]: the structural facts about the generators hold
      for every implementation of the arithmetic (IEEE doubles included).
      [Q] gives an executable instance, [R] an exact one for [Math.sqrt].
    - JavaScript values ([jsval]) carry the object shapes the code meets:
      JSON data, plus the built-in inherited members of [Object.prototype]
      that a plain object literal answers for any key.
    - Strings are Stdlib strings; a character is a code unit 0..255.
    - [Math.random()] is an explicit stream [rand : nat -> N], consumed in
      order; the state threaded through the code is the number of draws. *)

From Stdlib Require Import String Ascii List ZArith QArith Qround Lia.
From Stdlib Require Import Reals Lra.
Import ListNotations.
Open Scope nat_scope.
Open Scope string_scope.

(** ** Numbers *)

Class JsNum (N : Type) := {
  jadd : N -> N -> N;
  jsub : N -> N -> N;
  jmul : N -> N -> N;
  jdiv : N -> N -> N;
  jgt : N -> N -> bool;        (** [x > y] *)
  jlit : Q -> N                (** a numeric literal *)
}.

Class JsMath (N : Type) := {
  jround : N -> N;             (** [Math.round] *)
  jsin : N -> N;               (** [Math.sin] *)
  jnan : N;                    (** [NaN], i.e. [Number(undefined)] *)
  jtruthy : N -> bool;         (** [false] exactly on [0] and [NaN] *)
  jstr : N -> string           (** [String(x)], used as a property key *)
}.

Class JsSqrt (N : Type) := { jsqrt : N -> N }.

(** ** JavaScript values *)

#[local] Set Warnings "-register-all".

Section Values.
Context {N : Type}.

Inductive jsval : Type :=
| JUndef
| JNull
| JBool (b : bool)
| JNum (n : N)
| JStr (s : string)
| JArr (l : list jsval)
| JObj (ps : list (string * jsval))
| JFun (name : string)      (** a built-in method inherited from [Object.prototype] *)
| JObjProto.                (** [Object.prototype] itself (the value of [o.__proto__]) *)

End Values.
Arguments jsval : clear implicits.

(** Members every plain object literal inherits from [Object.prototype]. *)
Definition object_proto_members : list string :=
  ["constructor"; "hasOwnProperty"; "isPrototypeOf"; "propertyIsEnumerable";
   "toLocaleString"; "toString"; "valueOf"; "__defineGetter__";
   "__defineSetter__"; "__lookupGetter__"; "__lookupSetter__"; "__proto__"].

Definition is_proto_member (k : string) : bool :=
  existsb (String.eqb k) object_proto_members.

Fixpoint assoc {A} (k : string) (ps : list (string * A)) : option A :=
  match ps with
  | [] => None
  | (k', v) :: ps' => if String.eqb k k' then Some v else assoc k ps'
  end.

(** Result of reading [o[k]] on a plain object literal [o]: an own property,
    an inherited member of [Object.prototype], or nothing. *)
Inductive lookup_result (A : Type) : Type :=
| Own (v : A)
| Inherited (k : string)
| Absent.
Arguments Own {A}. Arguments Inherited {A}. Arguments Absent {A}.

Definition obj_lookup {A} (ps : list (string * A)) (k : string) : lookup_result A :=
  match assoc k ps with
  | Some v => Own v
  | None => if is_proto_member k then Inherited k else Absent
  end.

Definition inherited_value {N} (k : string) : jsval N :=
  if String.eqb k "__proto__" then JObjProto else JFun k.

(** ** Errors and the service monad *)

Inductive js_error : Type :=
| TypeError                    (** property read on null/undefined, call of a non-function *)
| SyntaxError                  (** [JSON.parse] rejected its input *)
| ValidationError (msg : string)   (** an [Error] thrown by [validateForecastData] *)
| AITimeout                    (** 'AI request timeout after 15 seconds' *)
| TransportError.              (** any rejection of the SDK stream *)

Inductive result (A : Type) : Type :=
| Ok (a : A)
| Err (e : js_error).
Arguments Ok {A}. Arguments Err {A}.

Definition rbind {A B} (r : result A) (f : A -> result B) : result B :=
  match r with Ok a => f a | Err e => Err e end.

Notation "x <- r ;; k" := (rbind r (fun x => k))
  (at level 61, r at next level, right associativity).

(** Code that draws [Math.random()]: the state is the number of draws made. *)
Definition M (A : Type) := nat -> result A * nat.

Definition mret {A} (a : A) : M A := fun s => (Ok a, s).
Definition mthrow {A} (e : js_error) : M A := fun s => (Err e, s).
Definition mlift {A} (r : result A) : M A := fun s => (r, s).
Definition mbind {A B} (m : M A) (f : A -> M B) : M B :=
  fun s => match m s with
           | (Ok a, s') => f a s'
           | (Err e, s') => (Err e, s')
           end.

Notation "x <-- m ;;; k" := (mbind m (fun x => k))
  (at level 61, m at next level, right associativity).

Definition draw {N} (rand : nat -> N) : M N := fun s => (Ok (rand s), S s).

(** ** Strings *)

Definition code (c : ascii) : nat := nat_of_ascii c.

(** [\s] of a JavaScript regular expression and the set [String.prototype.trim]
    removes, restricted to code units 0..255: TAB, LF, VT, FF, CR, SPACE, NBSP. *)
Definition is_js_space (c : ascii) : bool :=
  let n := code c in
  Nat.leb 9 n && Nat.leb n 13 || Nat.eqb n 32 || Nat.eqb n 160.

Fixpoint trim_start (s : string) : string :=
  match s with
  | EmptyString => EmptyString
  | String c r => if is_js_space c then trim_start r else s
  end.

Definition trim_end (s : string) : string :=
  string_of_list_ascii (rev (list_ascii_of_string (trim_start
    (string_of_list_ascii (rev (list_ascii_of_string s)))))).

(** [String.prototype.trim] *)
Definition js_trim (s : string) : string := trim_end (trim_start s).

Definition drop (n : nat) (s : string) : string := substring n (String.length s - n) s.

(** [s.replace(new RegExp(pat + "\\s*", "g"), '')]: scan left to right,
    deleting every occurrence of [pat] together with the whitespace after it. *)
Fixpoint replace_fence_go (fuel : nat) (pat s : string) : string :=
  match fuel with
  | O => s
  | S f =>
    match s with
    | EmptyString => EmptyString
    | String c r =>
      if prefix pat s then replace_fence_go f pat (trim_start (drop (String.length pat) s))
      else String c (replace_fence_go f pat r)
    end
  end.

Definition replace_fence (pat s : string) : string :=
  replace_fence_go (S (String.length s)) pat s.

(** [s.indexOf(c)] and [s.lastIndexOf(c)], with [None] for [-1]. *)
Fixpoint index_of (c : ascii) (s : string) : option nat :=
  match s with
  | EmptyString => None
  | String c' r => if Ascii.eqb c c' then Some 0
                   else option_map S (index_of c r)
  end.

Fixpoint last_index_of (c : ascii) (s : string) : option nat :=
  match s with
  | EmptyString => None
  | String c' r =>
    match last_index_of c r with
    | Some i => Some (S i)
    | None => if Ascii.eqb c c' then Some 0 else None
    end
  end.

(** [cleanJsonResponse] (lines 117-133). *)
Definition cleanJsonResponse (response : string) : string :=
  let cleaned := js_trim response in
  let cleaned := replace_fence "```" (replace_fence "```json" cleaned) in
  match index_of "{"%char cleaned, last_index_of "}"%char cleaned with
  | Some startIndex, Some lastIndex =>
      if Nat.ltb startIndex lastIndex
      then substring startIndex (lastIndex + 1 - startIndex) cleaned
      else cleaned
  | _, _ => cleaned
  end.

(** ** [JSON.parse]

    A recursive-descent reading of the JSON grammar (RFC 8259): whitespace is
    TAB, LF, CR and SPACE; numbers are [-? int frac? exp?]; a repeated key
    keeps its first position and its last value, as [JSON.parse] does.
    The fuel [2 * length + 2] bounds the nesting of calls, each of which
    consumes input before recursing. *)

Definition is_json_ws (c : ascii) : bool :=
  let n := code c in Nat.eqb n 9 || Nat.eqb n 10 || Nat.eqb n 13 || Nat.eqb n 32.

Fixpoint skip_ws (s : string) : string :=
  match s with
  | String c r => if is_json_ws c then skip_ws r else s
  | EmptyString => EmptyString
  end.

Definition digit_value (c : ascii) : option nat :=
  let n := code c in
  if Nat.leb 48 n && Nat.leb n 57 then Some (n - 48) else None.

Fixpoint span_digits (s : string) : list nat * string :=
  match s with
  | String c r =>
    match digit_value c with
    | Some d => let (ds, rest) := span_digits r in (d :: ds, rest)
    | None => ([], s)
    end
  | EmptyString => ([], EmptyString)
  end.

Definition digits_to_Z (ds : list nat) : Z :=
  fold_left (fun acc d => (10 * acc + Z.of_nat d)%Z) ds 0%Z.

Definition hex_value (c : ascii) : option nat :=
  let n := code c in
  if Nat.leb 48 n && Nat.leb n 57 then Some (n - 48)
  else if Nat.leb 65 n && Nat.leb n 70 then Some (n - 55)
  else if Nat.leb 97 n && Nat.leb n 102 then Some (n - 87)
  else None.

(** [m * 10^e] as a rational. *)
Definition scaled (m e : Z) : Q :=
  if (0 <=? e)%Z then inject_Z (m * 10 ^ e) else Qmake m (Z.to_pos (10 ^ (- e))).

Definition parse_number (s : string) : option (Q * string) :=
  let '(neg, s1) := match s with
                    | String "-" r => (true, r)
                    | _ => (false, s)
                    end in
  let int_part :=
    match s1 with
    | String "0" r => Some ([0], r)
    | String c _ =>
      match digit_value c with
      | Some _ => Some (span_digits s1)
      | None => None
      end
    | EmptyString => None
    end in
  match int_part with
  | None => None
  | Some (ids, r1) =>
    let frac :=
      match r1 with
      | String "." r =>
        let (fds, r') := span_digits r in
        match fds with [] => None | _ => Some (fds, r') end
      | _ => Some ([], r1)
      end in
    match frac with
    | None => None
    | Some (fds, r2) =>
      let exp :=
        match r2 with
        | String e r =>
          if Ascii.eqb e "e"%char || Ascii.eqb e "E"%char then
            let '(eneg, r') := match r with
                               | String "-" r'' => (true, r'')
                               | String "+" r'' => (false, r'')
                               | _ => (false, r)
                               end in
            let (eds, r'') := span_digits r' in
            match eds with
            | [] => None
            | _ => Some ((if eneg then - digits_to_Z eds else digits_to_Z eds)%Z, r'')
            end
          else Some (0%Z, r2)
        | EmptyString => Some (0%Z, r2)
        end in
      match exp with
      | None => None
      | Some (e, r3) =>
        let m := digits_to_Z (ids ++ fds) in
        let q := scaled m (e - Z.of_nat (List.length fds)) in
        Some (if neg then Qopp q else q, r3)
      end
    end
  end.

(** A JSON string body after its opening quote; a [\u] escape denotes a code
    unit, and only those up to 255 exist in this character model. *)
Fixpoint parse_str (fuel : nat) (s : string) : option (string * string) :=
  match fuel with
  | O => None
  | S f =>
    match s with
    | EmptyString => None
    | String c r =>
      if Ascii.eqb c "034"%char then Some (EmptyString, r)
      else if Ascii.eqb c "\"%char then
        let esc := match r with
                   | String e r' =>
                     match e with
                     | "034"%char | "\"%char | "/"%char => Some (e, r')
                     | "b"%char => Some (ascii_of_nat 8, r')
                     | "f"%char => Some (ascii_of_nat 12, r')
                     | "n"%char => Some (ascii_of_nat 10, r')
                     | "r"%char => Some (ascii_of_nat 13, r')
                     | "t"%char => Some (ascii_of_nat 9, r')
                     | "u"%char =>
                       match r' with
                       | String h1 (String h2 (String h3 (String h4 r''))) =>
                         match hex_value h1, hex_value h2, hex_value h3, hex_value h4 with
                         | Some a, Some b, Some c', Some d =>
                           let n := ((a * 16 + b) * 16 + c') * 16 + d in
                           if Nat.ltb n 256 then Some (ascii_of_nat n, r'') else None
                         | _, _, _, _ => None
                         end
                       | _ => None
                       end
                     | _ => None
                     end
                   | EmptyString => None
                   end in
        match esc with
        | Some (ch, rest) =>
          match parse_str f rest with
          | Some (str, rest') => Some (String ch str, rest')
          | None => None
          end
        | None => None
        end
      else if Nat.ltb (code c) 32 then None
      else match parse_str f r with
           | Some (str, rest') => Some (String c str, rest')
           | None => None
           end
    end
  end.

(** Insert a key into a parsed object: a repeated key keeps its position and
    takes the new value. *)
Fixpoint obj_set {A} (k : string) (v : A) (ps : list (string * A)) : list (string * A) :=
  match ps with
  | [] => [(k, v)]
  | (k', v') :: ps' => if String.eqb k k' then (k', v) :: ps' else (k', v') :: obj_set k v ps'
  end.

Section Json.
Context {N : Type} `{JsNum N}.

Fixpoint parse_value (fuel : nat) (s : string) : option (jsval N * string) :=
  match fuel with
  | O => None
  | S f =>
    let s := skip_ws s in
    match s with
    | String "{" r => parse_members f (skip_ws r) true []
    | String "[" r => parse_elems f (skip_ws r) true []
    | String "034"%char r =>
      match parse_str (S (String.length r)) r with
      | Some (str, rest) => Some (JStr str, rest)
      | None => None
      end
    | _ =>
      if prefix "true" s then Some (JBool true, drop 4 s)
      else if prefix "false" s then Some (JBool false, drop 5 s)
      else if prefix "null" s then Some (JNull, drop 4 s)
      else match parse_number s with
           | Some (q, rest) => Some (JNum (jlit q), rest)
           | None => None
           end
    end
  end
with parse_members (fuel : nat) (s : string) (first : bool)
    (acc : list (string * jsval N)) : option (jsval N * string) :=
  match fuel with
  | O => None
  | S f =>
    match s with
    | String "}" r => if first then Some (JObj acc, r) else None
    | String "034"%char r =>
      match parse_str (S (String.length r)) r with
      | Some (key, r1) =>
        match skip_ws r1 with
        | String ":" r2 =>
          match parse_value f r2 with
          | Some (v, r3) =>
            let acc' := obj_set key v acc in
            match skip_ws r3 with
            | String "," r4 => parse_members f (skip_ws r4) false acc'
            | String "}" r4 => Some (JObj acc', r4)
            | _ => None
            end
          | None => None
          end
        | _ => None
        end
      | None => None
      end
    | _ => None
    end
  end
with parse_elems (fuel : nat) (s : string) (first : bool)
    (acc : list (jsval N)) : option (jsval N * string) :=
  match fuel with
  | O => None
  | S f =>
    match s with
    | String "]" r => if first then Some (JArr (rev acc), r) else None
    | _ =>
      match parse_value f s with
      | Some (v, r1) =>
        match skip_ws r1 with
        | String "," r2 => parse_elems f (skip_ws r2) false (v :: acc)
        | String "]" r2 => Some (JArr (rev (v :: acc)), r2)
        | _ => None
        end
      | None => None
      end
    end
  end.

(** [JSON.parse(text)]: one value, then only whitespace. *)
Definition JSON_parse (text : string) : result (jsval N) :=
  match parse_value (2 * String.length text + 2) text with
  | Some (v, rest) =>
    match skip_ws rest with
    | EmptyString => Ok v
    | _ => Err SyntaxError
    end
  | None => Err SyntaxError
  end.

End Json.

#[export] Instance Q_JsNum : JsNum Q := {
  jadd := Qplus; jsub := Qminus; jmul := Qmult; jdiv := Qdiv;
  jgt := fun x y => negb (Qle_bool x y); jlit := fun q => q }.

(** ** Property reads, truthiness, conversions *)

Section Access.
Context {N : Type} `{JsNum N} `{JsMath N}.

(** [v[k]] for the keys this service reads ([forecast_trend], [glut_risk],
    [expected_demand_kg], ...), none of which is a member of a built-in
    prototype other than [Object.prototype]'s. *)
Definition js_get (v : jsval N) (k : string) : result (jsval N) :=
  match v with
  | JUndef | JNull => Err TypeError
  | JObj ps =>
    Ok (match obj_lookup ps k with
        | Own x => x
        | Inherited k' => inherited_value k'
        | Absent => JUndef
        end)
  | _ => Ok (if is_proto_member k then inherited_value k else JUndef)
  end.

(** [!!v] *)
Definition truthy (v : jsval N) : bool :=
  match v with
  | JUndef | JNull => false
  | JBool b => b
  | JNum n => jtruthy n
  | JStr s => negb (String.eqb s "")
  | _ => true
  end.

(** Whether [String(v)] (or [ToPrimitive]) returns normally: an object from
    JSON whose own [toString] is data, not a function, makes it throw. *)
Fixpoint to_string_ok (v : jsval N) : bool :=
  match v with
  | JObj ps => match assoc "toString" ps with Some _ => false | None => true end
  | JArr l => forallb to_string_ok l
  | _ => true
  end.

Definition join_with (sep : string) (l : list string) : string :=
  match l with
  | [] => ""
  | x :: xs => fold_left (fun acc y => acc ++ sep ++ y) xs x
  end.

(** [ToPropertyKey(v)] for a value used as [obj[v]]. *)
Fixpoint to_key (v : jsval N) : result string :=
  match v with
  | JUndef => Ok "undefined"
  | JNull => Ok "null"
  | JBool b => Ok (if b then "true" else "false")
  | JNum n => Ok (jstr n)
  | JStr s => Ok s
  | JArr l =>
    let fix keys (l : list (jsval N)) : result (list string) :=
      match l with
      | [] => Ok []
      | (JUndef | JNull) :: l' => ks <- keys l' ;; Ok ("" :: ks)
      | x :: l' => k <- to_key x ;; ks <- keys l' ;; Ok (k :: ks)
      end in
    ks <- keys l ;; Ok (join_with "," ks)
  | JObj ps =>
    match assoc "toString" ps with
    | Some _ => Err TypeError
    | None => Ok "[object Object]"
    end
  | JFun name => Ok ("function " ++ name ++ "() { [native code] }")
  | JObjProto => Ok "[object Object]"
  end.

Definition lower_ascii (c : ascii) : ascii :=
  let n := code c in
  if Nat.leb 65 n && Nat.leb n 90 then ascii_of_nat (n + 32)
  else if (Nat.leb 192 n && Nat.leb n 222 && negb (Nat.eqb n 215))
  then ascii_of_nat (n + 32) else c.

Fixpoint to_lower (s : string) : string :=
  match s with
  | EmptyString => EmptyString
  | String c r => String (lower_ascii c) (to_lower r)
  end.

End Access.

(** ** Data model *)

Record ForecastRequest {N : Type} := {
  req_crop : string;
  req_district : string;
  req_season : string;
  req_quantity : option N        (** [inputData.quantity], [None] when absent *)
}.
Arguments ForecastRequest : clear implicits.

Record MarketRecord {N : Type} := {
  mk_name : jsval N;
  mk_lat : jsval N;
  mk_lng : jsval N;
  mk_demand : string;
  mk_price : N;
  mk_risk : string
}.
Arguments MarketRecord : clear implicits.

Record TrendSeries {N : Type} := {
  day7 : list (jsval N);
  day14 : list (jsval N);
  day30 : list (jsval N)
}.
Arguments TrendSeries : clear implicits.

(** The returned forecast object; free-text fields (action summary,
    recommendation sentences) and timestamps are kept out, their evaluation
    only contributes the exceptions it can raise. *)
Record Forecast {N : Type} := {
  fc_success : bool;
  fc_crop : string;
  fc_district : string;
  fc_season : string;
  fc_quantity : jsval N;
  fc_demandTrend : TrendSeries N;
  fc_priceTrend : TrendSeries N;
  fc_glutRisk : string;
  fc_optimalPlantingTime : jsval N;
  fc_optimalSellingTime : jsval N;
  fc_recommendedQuantity : jsval N;
  fc_suggestedMarkets : jsval N;
  fc_markets : option (list (MarketRecord N));   (** [markets], AI path only *)
  fc_marketHeatmap : list (MarketRecord N);
  fc_source : string
}.
Arguments Forecast : clear implicits.

Section Normalizer.
Context {N : Type} `{JsNum N} `{JsMath N}.
Variable rand : nat -> N.

(** [validateForecastData] (lines 135-152). *)
Fixpoint check_required (data : jsval N) (fields : list string) : result unit :=
  match fields with
  | [] => Ok tt
  | field :: rest =>
    v <- js_get data field ;;
    if negb (truthy v) then Err (ValidationError ("Missing required field: " ++ field))
    else check_required data rest
  end.

Definition validateForecastData (data : jsval N) : result unit :=
  _ <- check_required data ["forecast_trend"; "glut_risk"] ;;
  ft <- js_get data "forecast_trend" ;;
  _ <- match ft with
       | JArr (_ :: _) => Ok tt
       | _ => Err (ValidationError "forecast_trend must be a non-empty array")
       end ;;
  gr <- js_get data "glut_risk" ;;
  match gr with
  | JStr s => if existsb (String.eqb s) ["Low"; "Medium"; "High"] then Ok tt
              else Err (ValidationError "glut_risk must be Low, Medium, or High")
  | _ => Err (ValidationError "glut_risk must be Low, Medium, or High")
  end.

(** [baseCoordinates] of [generateMarketHeatmap]. *)
Definition baseCoordinates : list (string * (Q * Q)) :=
  [("KR Market", (129716 # 10000, 775946 # 10000));
   ("Yeshwantpur Market", (130283 # 10000, 775546 # 10000));
   ("Bangalore Central Market", (129716 # 10000, 775946 # 10000));
   ("Mysore Market", (122958 # 10000, 766394 # 10000));
   ("Hubli Market", (153647 # 10000, 751240 # 10000));
   ("Mangalore Market", (129141 # 10000, 748560 # 10000))].

(** One [forEach] step of [generateMarketHeatmap]. *)
Definition heatmap_entry (market : jsval N) (index : nat) : M (MarketRecord N) :=
  key <-- mlift (to_key market) ;;;
  coords <-- (match obj_lookup baseCoordinates key with
              | Own (la, ln) => mret (JNum (jlit la), JNum (jlit ln))
              | Inherited _ =>
                (* a function or [Object.prototype]: [coords[0]], [coords[1]] are undefined *)
                mret (JUndef, JUndef)
              | Absent =>
                r1 <-- draw rand ;;;
                r2 <-- draw rand ;;;
                mret (JNum (jadd (jlit (129716 # 10000)) (jmul (jsub r1 (jlit (1 # 2))) (jlit 2%Q))),
                      JNum (jadd (jlit (775946 # 10000)) (jmul (jsub r2 (jlit (1 # 2))) (jlit 2%Q))))
              end) ;;;
  r3 <-- draw rand ;;;
  mret {| mk_name := market; mk_lat := fst coords; mk_lng := snd coords;
          mk_demand := "high"; mk_price := jadd (jlit 25%Q) (jmul r3 (jlit 15%Q));
          mk_risk := if Nat.eqb index 0 then "low" else "medium" |}.

Fixpoint heatmap_loop (markets : list (jsval N)) (index : nat) : M (list (MarketRecord N)) :=
  match markets with
  | [] => mret []
  | m :: ms =>
    e <-- heatmap_entry m index ;;;
    es <-- heatmap_loop ms (S index) ;;;
    mret (e :: es)
  end.

(** [generateMarketHeatmap] (lines 210-235): [forEach] exists on arrays only. *)
Definition generateMarketHeatmap (suggestedMarkets : jsval N) : M (list (MarketRecord N)) :=
  match suggestedMarkets with
  | JArr l => heatmap_loop l 0
  | _ => mthrow TypeError
  end.

End Normalizer.

Section Format.
Context {N : Type} `{JsNum N} `{JsMath N}.
Variable rand : nat -> N.

Fixpoint map_get (items : list (jsval N)) (k : string) : result (list (jsval N)) :=
  match items with
  | [] => Ok []
  | it :: rest => v <- js_get it k ;; vs <- map_get rest k ;; Ok (v :: vs)
  end.

(** [arr.slice(0, n).map(item => item[k])]; [slice] exists on arrays only. *)
Definition slice_map (arr : jsval N) (n : option nat) (k : string) : result (list (jsval N)) :=
  match arr with
  | JArr items => map_get (match n with Some n => firstn n items | None => items end) k
  | _ => Err TypeError
  end.

Definition trend_of (trend : jsval N) (k : string) : result (TrendSeries N) :=
  d7 <- slice_map trend (Some 7) k ;;
  d14 <- slice_map trend (Some 14) k ;;
  d30 <- slice_map trend None k ;;
  Ok {| day7 := d7; day14 := d14; day30 := d30 |}.

Definition ensure (b : bool) : result unit := if b then Ok tt else Err TypeError.

(** [formatForecastResponse] (lines 155-208). *)
Definition formatForecastResponse (aiData : jsval N) (inputData : ForecastRequest N)
  : M (Forecast N) :=
  r <-- mlift (
    trend <- js_get aiData "forecast_trend" ;;
    demandTrend <- trend_of trend "expected_demand_kg" ;;
    priceTrend <- trend_of trend "expected_price_per_kg" ;;
    gr <- js_get aiData "glut_risk" ;;
    glutRisk <- (match gr with JStr s => Ok (to_lower s) | _ => Err TypeError end) ;;
    planting <- js_get aiData "optimal_planting_time" ;;
    selling <- js_get aiData "optimal_selling_time" ;;
    rq <- js_get aiData "recommended_quantity_kg" ;;
    sm <- js_get aiData "suggested_markets" ;;
    _ <- js_get aiData "action_summary" ;;
    (* recommendations: [new Date(..)], the template literals and [join] *)
    _ <- ensure (to_string_ok planting) ;;
    _ <- ensure (to_string_ok selling) ;;
    _ <- ensure (to_string_ok planting) ;;
    _ <- ensure (to_string_ok selling) ;;
    _ <- ensure (to_string_ok rq) ;;
    _ <- (match sm with JArr l => ensure (forallb to_string_ok l) | _ => Err TypeError end) ;;
    Ok (demandTrend, priceTrend, glutRisk, planting, selling, rq, sm)) ;;;
  let '(demandTrend, priceTrend, glutRisk, planting, selling, rq, sm) := r in
  markets <-- generateMarketHeatmap rand sm ;;;
  marketHeatmap <-- generateMarketHeatmap rand sm ;;;
  mret {| fc_success := true;
          fc_crop := req_crop inputData;
          fc_district := req_district inputData;
          fc_season := req_season inputData;
          fc_quantity := match req_quantity inputData with Some q => JNum q | None => JUndef end;
          fc_demandTrend := demandTrend;
          fc_priceTrend := priceTrend;
          fc_glutRisk := glutRisk;
          fc_optimalPlantingTime := planting;
          fc_optimalSellingTime := selling;
          fc_recommendedQuantity := rq;
          fc_suggestedMarkets := sm;
          fc_markets := Some markets;
          fc_marketHeatmap := marketHeatmap;
          fc_source := "gemini-ai" |}.

(** [item.k] on an object parsed from JSON, for a key [k] that is not a
    member of [Object.prototype]: the own value, or [undefined]. *)
Definition item_value (k : string) (item : list (string * jsval N)) : jsval N :=
  match assoc k item with Some v => v | None => JUndef end.

End Format.

(** ** Dates ([Date], ECMAScript 21.4)

    A time value is a count of milliseconds since the epoch (UTC).
    [LocalTZA(t, true)] and [LocalTZA(t, false)] are the host's time-zone
    offsets, given as functions. *)

Definition msPerDay : Z := 86400000.

(** Proleptic Gregorian calendar: day number of a civil date and back. *)
Definition days_from_civil (y m d : Z) : Z :=
  let y := if (m <=? 2)%Z then (y - 1)%Z else y in
  let era := (y / 400)%Z in
  let yoe := (y - era * 400)%Z in
  let doy := ((153 * (if (m >? 2)%Z then m - 3 else m + 9) + 2) / 5 + d - 1)%Z in
  let doe := (yoe * 365 + yoe / 4 - yoe / 100 + doy)%Z in
  (era * 146097 + doe - 719468)%Z.

Definition civil_from_days (z : Z) : Z * Z * Z :=
  let z := (z + 719468)%Z in
  let era := (z / 146097)%Z in
  let doe := (z - era * 146097)%Z in
  let yoe := ((doe - doe / 1460 + doe / 36524 - doe / 146096) / 365)%Z in
  let y := (yoe + era * 400)%Z in
  let doy := (doe - (365 * yoe + yoe / 4 - yoe / 100))%Z in
  let mp := ((5 * doy + 2) / 153)%Z in
  let d := (doy - (153 * mp + 2) / 5 + 1)%Z in
  let m := if (mp <? 10)%Z then (mp + 3)%Z else (mp - 9)%Z in
  ((if (m <=? 2)%Z then y + 1 else y)%Z, m, d).

Record TimeZone := {
  tza_utc : Z -> Z;     (** [LocalTZA(t, true)] *)
  tza_local : Z -> Z    (** [LocalTZA(t, false)] *)
}.

Definition LocalTime (tz : TimeZone) (t : Z) : Z := (t + tza_utc tz t)%Z.
Definition UTC (tz : TimeZone) (t : Z) : Z := (t - tza_local tz t)%Z.

(** [d.getDate()] *)
Definition getDate (tz : TimeZone) (t : Z) : Z :=
  let '(_, _, d) := civil_from_days (LocalTime tz t / msPerDay) in d.

(** [d.setDate(dt)]: same local year, month and time of day, day [dt]
    (MakeDay lets [dt] run past the end of the month). *)
Definition setDate (tz : TimeZone) (t dt : Z) : Z :=
  let l := LocalTime tz t in
  let '(y, m, _) := civil_from_days (l / msPerDay) in
  UTC tz ((days_from_civil y m 1 + dt - 1) * msPerDay + l mod msPerDay)%Z.

Fixpoint pad_digits (w : nat) (z : Z) (acc : string) : string :=
  match w with
  | O => acc
  | S w' => pad_digits w' (z / 10)%Z
              (String (ascii_of_nat (48 + Z.to_nat (z mod 10))) acc)
  end.

(** [d.toISOString().split('T')[0]] for years 0..9999. *)
Definition iso_date (t : Z) : string :=
  let '(y, m, d) := civil_from_days (t / msPerDay) in
  pad_digits 4 y "" ++ "-" ++ pad_digits 2 m "" ++ "-" ++ pad_digits 2 d "".

(** ** Mock forecast generator and orchestrator *)

(** [crops] of [generateMockForecast]: basePrice, volatility, demandMultiplier. *)
Definition crops : list (string * (Q * Q * Q)) :=
  [("Rice", (25 # 1, 1 # 10, 12 # 10)); ("Wheat", (22 # 1, 8 # 100, 11 # 10));
   ("Maize", (18 # 1, 12 # 100, 1 # 1)); ("Cotton", (45 # 1, 15 # 100, 9 # 10));
   ("Sugarcane", (3 # 1, 5 # 100, 13 # 10)); ("Tomato", (35 # 1, 2 # 10, 11 # 10));
   ("Onion", (20 # 1, 18 # 100, 1 # 1)); ("Potato", (15 # 1, 12 # 100, 11 # 10))].

(** [marketsByDistrict] of [generateMockForecast]. *)
Definition marketsByDistrict : list (string * list string) :=
  [("Karnataka", ["KR Market"; "Yeshwantpur Market"; "Bangalore Central Market"]);
   ("Maharashtra", ["Crawford Market"; "Pune Market"; "Nashik Market"]);
   ("Tamil Nadu", ["Koyambedu Market"; "Chennai Central Market"; "Coimbatore Market"]);
   ("Punjab", ["Ludhiana Market"; "Amritsar Market"; "Jalandhar Market"]);
   ("Haryana", ["Gurgaon Market"; "Faridabad Market"; "Panipat Market"])].

(** The host environment of a call: credential state, the settled outcome of
    [Promise.race([aiPromise, timeoutPromise])] (the streamed text, or
    [AITimeout] / [TransportError]), the clock and the time zone. *)
Record Env := {
  isAvailable : bool;
  ai_outcome : result string;
  now : Z;
  timezone : TimeZone
}.

Section Mock.
Context {N : Type} `{JsNum N} `{JsMath N}.
Variable rand : nat -> N.

Definition crop_params (crop : string) : N * N * N :=
  let lit3 '(p, v, d) := (jlit p, jlit v, jlit d) in
  match obj_lookup crops crop with
  | Own p => lit3 p
  | Inherited _ => (jnan, jnan, jnan)   (* members of a function: undefined *)
  | Absent => lit3 (25 # 1, 1 # 10, 12 # 10)
  end.

Record Trends := {
  d7 : list N; d14 : list N; d30 : list N;
  p7 : list N; p14 : list N; p30 : list N
}.

Definition push_day (i : nat) (demand price : N) (t : Trends) : Trends :=
  {| d30 := d30 t ++ [demand]; p30 := p30 t ++ [price];
     d14 := if Nat.ltb i 14 then d14 t ++ [demand] else d14 t;
     p14 := if Nat.ltb i 14 then p14 t ++ [price] else p14 t;
     d7 := if Nat.ltb i 7 then d7 t ++ [demand] else d7 t;
     p7 := if Nat.ltb i 7 then p7 t ++ [price] else p7 t |}.

(** The [for (let i = 0; i < 30; i++)] loop, from day [i], [k] days left. *)
Fixpoint trend_loop (baseDemand basePrice volatility : N) (i k : nat) (t : Trends) : M Trends :=
  match k with
  | O => mret t
  | S k' =>
    let dayFactor := jadd (jlit 1%Q) (jmul (jsin (jdiv (jlit (inject_Z (Z.of_nat i))) (jlit 7%Q))) (jlit (1 # 10))) in
    r <-- draw rand ;;;
    let randomFactor := jadd (jlit 1%Q) (jmul (jsub r (jlit (1 # 2))) volatility) in
    let demand := jround (jmul (jmul baseDemand dayFactor) randomFactor) in
    let price := jdiv (jround (jmul (jmul basePrice randomFactor) (jlit 100%Q))) (jlit 100%Q) in
    trend_loop baseDemand basePrice volatility (S i) k' (push_day i demand price t)
  end.

Definition empty_trends : Trends := Build_Trends [] [] [] [] [] [].

Definition as_series (l : list N) : list (jsval N) := map JNum l.

Definition classify_glut (baseQuantity avgDemand : N) : string :=
  if jgt baseQuantity (jmul avgDemand (jlit (3 # 2))) then "high"
  else if jgt baseQuantity (jmul avgDemand (jlit (6 # 5))) then "medium"
  else "low".

(** [inputData.quantity || 100] *)
Definition baseQuantity_of (inputData : ForecastRequest N) : N :=
  match req_quantity inputData with
  | Some q => if jtruthy q then q else jlit 100%Q
  | None => jlit 100%Q
  end.

(** [generateMockForecast] (lines 237-334). *)
Definition generateMockForecast (env : Env) (inputData : ForecastRequest N) : M (Forecast N) :=
  let '(basePrice, volatility, demandMultiplier) := crop_params (req_crop inputData) in
  let baseQuantity := baseQuantity_of inputData in
  let baseDemand := jround (jmul baseQuantity demandMultiplier) in
  t <-- trend_loop baseDemand basePrice volatility 0 30 empty_trends ;;;
  let avgDemand := jdiv (fold_left jadd (d30 t) (jlit 0%Q)) (jlit 30%Q) in
  let glutRisk := classify_glut baseQuantity avgDemand in
  let tz := timezone env in
  let today := now env in
  let plantingDate := setDate tz today (getDate tz today + 7) in
  let sellingDate := setDate tz plantingDate (getDate tz plantingDate + 90) in
  (* [suggestedMarkets.slice(0, 2)] in the action summary *)
  suggested <-- (match obj_lookup marketsByDistrict (req_district inputData) with
                 | Own l => mret (JArr (map JStr l))
                 | Inherited _ => mthrow TypeError
                 | Absent => mret (JArr (map JStr ["KR Market"; "Yeshwantpur Market";
                                                   "Bangalore Central Market"]))
                 end) ;;;
  heat <-- generateMarketHeatmap rand suggested ;;;
  mret {| fc_success := true;
          fc_crop := req_crop inputData;
          fc_district := req_district inputData;
          fc_season := req_season inputData;
          fc_quantity := JNum baseQuantity;
          fc_demandTrend := {| day7 := as_series (d7 t); day14 := as_series (d14 t);
                               day30 := as_series (d30 t) |};
          fc_priceTrend := {| day7 := as_series (p7 t); day14 := as_series (p14 t);
                              day30 := as_series (p30 t) |};
          fc_glutRisk := glutRisk;
          fc_optimalPlantingTime := JStr (iso_date plantingDate);
          fc_optimalSellingTime := JStr (iso_date sellingDate);
          fc_recommendedQuantity := JNum (jround (jmul avgDemand (jlit (9 # 10))));
          fc_suggestedMarkets := suggested;
          fc_markets := None;
          fc_marketHeatmap := heat;
          fc_source := "mock-data" |}.

(** The AI path inside the [try] block of [generateForecast]. *)
Definition ai_path (env : Env) (inputData : ForecastRequest N) : M (Forecast N) :=
  fullResponse <-- mlift (ai_outcome env) ;;;
  let cleanedResponse := cleanJsonResponse fullResponse in
  forecastData <-- mlift (JSON_parse cleanedResponse) ;;;
  _ <-- mlift (validateForecastData forecastData) ;;;
  formatForecastResponse rand forecastData inputData.

(** [generateForecast] (lines 31-115). *)
Definition generateForecast (env : Env) (inputData : ForecastRequest N) : M (Forecast N) :=
  if negb (isAvailable env) then generateMockForecast env inputData
  else fun s =>
    match ai_path env inputData s with
    | (Ok f, s') => (Ok f, s')
    | (Err _, s') => generateMockForecast env inputData s'
    end.

End Mock.
Arguments Trends : clear implicits.

(** A forecast with its [crop] field replaced. *)
Definition with_crop {N : Type} (c : string) (f : Forecast N) : Forecast N :=
  {| fc_success := fc_success f; fc_crop := c; fc_district := fc_district f;
     fc_season := fc_season f; fc_quantity := fc_quantity f;
     fc_demandTrend := fc_demandTrend f; fc_priceTrend := fc_priceTrend f;
     fc_glutRisk := fc_glutRisk f; fc_optimalPlantingTime := fc_optimalPlantingTime f;
     fc_optimalSellingTime := fc_optimalSellingTime f;
     fc_recommendedQuantity := fc_recommendedQuantity f;
     fc_suggestedMarkets := fc_suggestedMarkets f; fc_markets := fc_markets f;
     fc_marketHeatmap := fc_marketHeatmap f; fc_source := fc_source f |}.

(** ** An executable instance: exact rational arithmetic

    [Math.sin] is replaced by its Taylor polynomial of degree 11 and [NaN] by
    [0]; the theorems below hold for every instance, this one runs them. *)

Fixpoint nat_digits (fuel : nat) (n : nat) (acc : string) : string :=
  match fuel with
  | O => acc
  | S f =>
    let acc' := String (ascii_of_nat (48 + n mod 10)) acc in
    if Nat.ltb n 10 then acc' else nat_digits f (n / 10) acc'
  end.

Definition Z_to_string (z : Z) : string :=
  let n := Z.to_nat (Z.abs z) in
  (if (z <? 0)%Z then "-" else "") ++ nat_digits (S n) n "".

Definition Q_sin (x : Q) : Q :=
  let x2 := (x * x)%Q in
  (x * (1 - x2 / 6 * (1 - x2 / 20 * (1 - x2 / 42 * (1 - x2 / 72 * (1 - x2 / 110))))))%Q.

#[export] Instance Q_JsMath : JsMath Q := {
  jround := fun x => inject_Z (Qfloor (x + (1 # 2)));
  jsin := Q_sin;
  jnan := 0%Q;
  jtruthy := fun q => negb (Qeq_bool q 0);
  jstr := fun q => if (Qden q =? 1)%positive then Z_to_string (Qnum q)
                   else Z_to_string (Qnum q) ++ "/" ++ Z_to_string (Zpos (Qden q))
}.

(** Sample inputs: a server clock on 2026-02-21T00:30Z, UTC or New York
    time (2026 daylight-saving rules), a fixed stream of [Math.random()]
    values, and a request. *)
Definition sample_rand (i : nat) : Q := inject_Z (Z.of_nat ((i * 37) mod 100)) / 100.

Definition utc_zone : TimeZone := {| tza_utc := fun _ => 0%Z; tza_local := fun _ => 0%Z |}.

(** America/New_York in 2026: UTC-4 from 2026-03-08T07:00Z (local 02:00 EST)
    to 2026-11-01T06:00Z (local 02:00 EDT), UTC-5 otherwise. *)
Definition new_york_2026 : TimeZone :=
  let hour := 3600000%Z in
  let dst_start := (days_from_civil 2026 3 8 * msPerDay + 7 * hour)%Z in
  let dst_end := (days_from_civil 2026 11 1 * msPerDay + 6 * hour)%Z in
  {| tza_utc := fun t => if (dst_start <=? t)%Z && (t <? dst_end)%Z then (-4 * hour)%Z else (-5 * hour)%Z;
     tza_local := fun l => if (dst_start - 5 * hour <=? l)%Z && (l <? dst_end - 4 * hour)%Z
                           then (-4 * hour)%Z else (-5 * hour)%Z |}.

Definition sample_now : Z := (days_from_civil 2026 2 21 * msPerDay + 30 * 60000)%Z.

Definition sample_env (available : bool) (outcome : result string) (tz : TimeZone) : Env :=
  {| isAvailable := available; ai_outcome := outcome; now := sample_now; timezone := tz |}.

Definition sample_request (crop district : string) : ForecastRequest Q :=
  {| req_crop := crop; req_district := district; req_season := "Kharif";
     req_quantity := Some 100%Q |}.

(** Sample model replies: [quote s] is the JSON string literal of [s]. *)
Definition newline : string := String "010"%char EmptyString.
Definition quote (s : string) : string := String "034"%char (s ++ String "034"%char EmptyString).

(** [Here you go:\n```json\n{"a": 1}\n```] *)
Definition fenced_reply : string :=
  "Here you go:" ++ newline ++ "```json" ++ newline ++ "{" ++ quote "a" ++ ": 1}" ++ newline ++ "```".

(** A reply object of the prompt's schema with ten trend items, as
    [JSON.parse] returns it. *)
Definition sample_trend_item (d : nat) : list (string * jsval Q) :=
  [("date", JStr "2026-03-01"); ("expected_demand_kg", JNum (inject_Z (Z.of_nat (1000 + 10 * d))));
   ("expected_price_per_kg", JNum (inject_Z (Z.of_nat (20 + d))))].

Definition sample_trend_items : list (list (string * jsval Q)) := map sample_trend_item (seq 1 10).

Definition sample_ai_fields : list (string * jsval Q) :=
  [("forecast_trend", JArr (map JObj sample_trend_items));
   ("glut_risk", JStr "Medium");
   ("optimal_planting_time", JStr "2026-03-01");
   ("optimal_selling_time", JStr "2026-06-01");
   ("recommended_quantity_kg", JNum 900%Q);
   ("suggested_markets", JArr [JStr "KR Market"; JStr "Hubli Market"]);
   ("action_summary", JStr "Plant early.")].

(** A reply of the prompt's schema with two trend items; [price1] and
    [price2] are the JSON texts of the two [expected_price_per_kg] values. *)
Definition sample_reply_item (date demand price : string) : string :=
  "{" ++ quote "date" ++ ": " ++ quote date ++ ", " ++ quote "expected_demand_kg" ++ ": " ++
  demand ++ ", " ++ quote "expected_price_per_kg" ++ ": " ++ price ++ "}".

Definition sample_reply (price1 price2 : string) : string :=
  "{" ++ quote "forecast_trend" ++ ": [" ++ sample_reply_item "2026-03-01" "1000" price1 ++ ", " ++
  sample_reply_item "2026-03-02" "1100" price2 ++ "], " ++
  quote "glut_risk" ++ ": " ++ quote "Medium" ++ ", " ++
  quote "optimal_planting_time" ++ ": " ++ quote "2026-03-01" ++ ", " ++
  quote "optimal_selling_time" ++ ": " ++ quote "2026-06-01" ++ ", " ++
  quote "recommended_quantity_kg" ++ ": 900, " ++
  quote "suggested_markets" ++ ": [" ++ quote "KR Market" ++ ", " ++ quote "Hubli Market" ++ "], " ++
  quote "action_summary" ++ ": " ++ quote "Plant early." ++ "}".

(** [{"note": "see ```json here"}] *)
Definition fence_in_string_reply : string :=
  "{" ++ quote "note" ++ ": " ++ quote "see ```json here" ++ "}".

(** ** Simulation: [calculateVolatility] (lines 380-389) *)

Section Volatility.
Context {N : Type} `{JsNum N} `{JsSqrt N}.

Definition js_length (l : list N) : N := jlit (inject_Z (Z.of_nat (List.length l))).

(** [stdDev / mean] of the price series; [Math.pow(d, 2)] is [d * d]. *)
Definition volatility_of (prices : list N) : N :=
  let mean := jdiv (fold_left jadd prices (jlit 0%Q)) (js_length prices) in
  let variance := jdiv (fold_left (fun a b => jadd a (jmul (jsub b mean) (jsub b mean)))
                                  prices (jlit 0%Q)) (js_length prices) in
  let stdDev := jsqrt variance in
  jdiv stdDev mean.

Definition calculateVolatility (prices : list N) : string :=
  let volatility := volatility_of prices in
  if jgt volatility (jlit (15 # 100)) then "high"
  else if jgt volatility (jlit (8 # 100)) then "medium"
  else "low".

End Volatility.

(** Exact real arithmetic, with [Math.sqrt] as [sqrt]. [Rdiv] by zero is
    [0], where JavaScript gives [NaN] or an infinity: statements over [R]
    that divide by a mean assume it is nonzero. *)
#[export] Instance R_JsNum : JsNum R := {
  jadd := Rplus; jsub := Rminus; jmul := Rmult; jdiv := Rdiv;
  jgt := fun x y => if Rlt_dec y x then true else false;
  jlit := Q2R }.

#[export] Instance R_JsSqrt : JsSqrt R := { jsqrt := sqrt }.

(** ** Simulation: [generateSimulation] and its predictions (lines 336-378)

    The predictions read the forecast's values with JavaScript's [+], [-],
    [*] and [/], so the values a reply may carry (strings, objects, arrays,
    [null], [undefined]) go through [ToPrimitive] and [ToNumber].
    [StringToNumber] is a built-in of the host, like [Math.sin]. *)

Class JsConv (N : Type) := { jstring_to_number : string -> N }.

Section Simulation.
Context {N : Type} `{JsNum N} `{JsMath N} `{JsSqrt N} `{JsConv N}.
Variable rand : nat -> N.

(** [ToPrimitive(v)]: an object or array becomes its [toString()] (its
    [valueOf()] is itself); a function its source text. *)
Definition to_primitive (v : jsval N) : result (jsval N) :=
  match v with
  | JArr _ | JObj _ | JFun _ | JObjProto => k <- to_key v ;; Ok (JStr k)
  | _ => Ok v
  end.

(** [ToNumber(v)] *)
Definition to_number (v : jsval N) : result N :=
  p <- to_primitive v ;;
  Ok (match p with
      | JUndef => jnan
      | JNull => jlit 0%Q
      | JBool b => jlit (if b then 1%Q else 0%Q)
      | JNum n => n
      | JStr s => jstring_to_number s
      | _ => jnan
      end).

Definition is_jstr (v : jsval N) : bool := match v with JStr _ => true | _ => false end.

(** [a + b] *)
Definition js_plus (a b : jsval N) : result (jsval N) :=
  pa <- to_primitive a ;;
  pb <- to_primitive b ;;
  if is_jstr pa || is_jstr pb then
    sa <- to_key pa ;; sb <- to_key pb ;; Ok (JStr (sa ++ sb))
  else
    x <- to_number pa ;; y <- to_number pb ;; Ok (JNum (jadd x y)).

(** [values.reduce((a, b) => a + b, acc)] *)
Fixpoint js_sum (acc : jsval N) (values : list (jsval N)) : result (jsval N) :=
  match values with
  | [] => Ok acc
  | v :: rest => acc' <- js_plus acc v ;; js_sum acc' rest
  end.

(** [inputData.quantity || forecast.recommendedQuantity] *)
Definition sim_quantity (forecast : Forecast N) (inputData : ForecastRequest N) : jsval N :=
  match req_quantity inputData with
  | Some q => if jtruthy q then JNum q else fc_recommendedQuantity forecast
  | None => fc_recommendedQuantity forecast
  end.

(** [calculateRevenue] (lines 357-361). *)
Definition calculateRevenue (forecast : Forecast N) (inputData : ForecastRequest N) : result N :=
  total <- js_sum (JNum (jlit 0%Q)) (day30 (fc_priceTrend forecast)) ;;
  t <- to_number total ;;
  let avgPrice := jdiv t (jlit 30%Q) in
  q <- to_number (sim_quantity forecast inputData) ;;
  Ok (jround (jmul avgPrice q)).

(** [calculateProfit] (lines 363-367). *)
Definition calculateProfit (forecast : Forecast N) (inputData : ForecastRequest N) : result N :=
  revenue <- calculateRevenue forecast inputData ;;
  q <- to_number (sim_quantity forecast inputData) ;;
  let costs := jmul q (jlit 10%Q) in
  Ok (jround (jsub revenue costs)).

(** [calculateVolatility] (lines 380-389) on the values of an array as a
    forecast carries them; [calculateVolatility] above is the same function
    on an array of numbers. *)
Definition calculateVolatility_values (prices : list (jsval N)) : result string :=
  total <- js_sum (JNum (jlit 0%Q)) prices ;;
  t <- to_number total ;;
  let len := jlit (inject_Z (Z.of_nat (List.length prices))) in
  let mean := jdiv t len in
  let fix sq_sum (acc : N) (l : list (jsval N)) : result N :=
    match l with
    | [] => Ok acc
    | b :: rest => x <- to_number b ;; sq_sum (jadd acc (jmul (jsub x mean) (jsub x mean))) rest
    end in
  sq <- sq_sum (jlit 0%Q) prices ;;
  let variance := jdiv sq len in
  let stdDev := jsqrt variance in
  let volatility := jdiv stdDev mean in
  Ok (if jgt volatility (jlit (15 # 100)) then "high"
      else if jgt volatility (jlit (8 # 100)) then "medium"
      else "low").

Record RiskFactors := {
  rf_glutRisk : string;
  rf_marketVolatility : string;
  rf_seasonalFactor : string
}.

(** [assessRisk] (lines 369-377). *)
Definition assessRisk (forecast : Forecast N) (inputData : ForecastRequest N) : result RiskFactors :=
  vol <- calculateVolatility_values (day30 (fc_priceTrend forecast)) ;;
  Ok {| rf_glutRisk := fc_glutRisk forecast;
        rf_marketVolatility := vol;
        rf_seasonalFactor := if String.eqb (req_season inputData) "Kharif" then "medium" else "low" |}.

Record Simulation := {
  sim_forecast : Forecast N;
  sim_type : string;
  sim_marketChoice : jsval N;
  sim_revenue : N;
  sim_profit : N;
  sim_risk : RiskFactors
}.

(** [generateSimulation] (lines 336-355). The [scenario: 'simulation'] field
    of the forecast request only enters the AI prompt, which [Env] abstracts;
    [marketChoice] is [inputData.marketChoice]. *)
Definition generateSimulation (env : Env) (inputData : ForecastRequest N) (marketChoice : jsval N)
  : M Simulation :=
  forecast <-- generateForecast rand env inputData ;;;
  revenue <-- mlift (calculateRevenue forecast inputData) ;;;
  profit <-- mlift (calculateProfit forecast inputData) ;;;
  risk <-- mlift (assessRisk forecast inputData) ;;;
  mret {| sim_forecast := forecast;
          sim_type := "scenario-analysis";
          sim_marketChoice := if truthy marketChoice then marketChoice else JStr "Local Market";
          sim_revenue := revenue;
          sim_profit := profit;
          sim_risk := risk |}.

End Simulation.
Arguments RiskFactors : clear implicits.
Arguments Simulation : clear implicits.

(** [StringToNumber] on the trimmed text: a [StrDecimalLiteral] (sign,
    digits with leading zeros allowed, optional fraction, optional
    exponent) or a [0x], [0o], [0b] integer. *)
Fixpoint span_base (base : nat) (s : string) : list nat * string :=
  match s with
  | String c r =>
    match hex_value c with
    | Some d => if Nat.ltb d base then let (ds, rest) := span_base base r in (d :: ds, rest)
                else ([], s)
    | None => ([], s)
    end
  | EmptyString => ([], EmptyString)
  end.

Definition digits_in_base (base : nat) (ds : list nat) : Z :=
  fold_left (fun acc d => (Z.of_nat base * acc + Z.of_nat d)%Z) ds 0%Z.

Definition str_decimal (s : string) : option Q :=
  let '(neg, s1) := match s with
                    | String "-" r => (true, r)
                    | String "+" r => (false, r)
                    | _ => (false, s)
                    end in
  let (ids, r1) := span_digits s1 in
  let '(fds, r2) := match r1 with
                    | String "." r => span_digits r
                    | _ => ([], r1)
                    end in
  match app ids fds with
  | [] => None
  | _ =>
    let exp :=
      match r2 with
      | String e r =>
        if Ascii.eqb e "e"%char || Ascii.eqb e "E"%char then
          let '(eneg, r') := match r with
                             | String "-" r'' => (true, r'')
                             | String "+" r'' => (false, r'')
                             | _ => (false, r)
                             end in
          let (eds, r'') := span_digits r' in
          match eds with
          | [] => None
          | _ => Some ((if eneg then - digits_to_Z eds else digits_to_Z eds)%Z, r'')
          end
        else Some (0%Z, r2)
      | EmptyString => Some (0%Z, r2)
      end in
    match exp with
    | Some (e, EmptyString) =>
      let q := scaled (digits_to_Z (app ids fds)) (e - Z.of_nat (List.length fds)) in
      Some (if neg then Qopp q else q)
    | _ => None
    end
  end.

Definition non_decimal_base (c : ascii) : option nat :=
  if Ascii.eqb c "x"%char || Ascii.eqb c "X"%char then Some 16
  else if Ascii.eqb c "o"%char || Ascii.eqb c "O"%char then Some 8
  else if Ascii.eqb c "b"%char || Ascii.eqb c "B"%char then Some 2
  else None.

Definition string_to_number_Q (t : string) : option Q :=
  match t with
  | String "0" (String c r) =>
    match non_decimal_base c with
    | Some base =>
      let (ds, rest) := span_base base r in
      match ds, rest with
      | _ :: _, EmptyString => Some (inject_Z (digits_in_base base ds))
      | _, _ => None
      end
    | None => str_decimal t
    end
  | _ => str_decimal t
  end.

(** Executable stand-ins over [Q]: [Math.sqrt] to four decimals (rounded
    down), and [StringToNumber] (the empty text is [0]); a text that is no
    number gives [NaN], and ["Infinity"], which has no value in [Q], is
    taken as [NaN] too ([NaN] is [0] in this instance). *)
#[export] Instance Q_JsSqrt : JsSqrt Q := {
  jsqrt := fun q => Z.sqrt (Qnum q * Zpos (Qden q) * 100000000) # (Qden q * 10000) }.

#[export] Instance Q_JsConv : JsConv Q := {
  jstring_to_number := fun s =>
    match js_trim s with
    | EmptyString => 0%Q
    | t => match string_to_number_Q t with Some q => q | None => jnan end
    end }.

(** The invariant of the mock generator's loop after [i] days: the 7- and
    14-day windows are prefixes of the 30-day series. *)
Definition prefix_inv {N : Type} (i : nat) (t : Trends N) : Prop :=
  List.length (d30 t) = i /\ List.length (p30 t) = i /\
  d14 t = firstn 14 (d30 t) /\ d7 t = firstn 7 (d30 t) /\
  p14 t = firstn 14 (p30 t) /\ p7 t = firstn 7 (p30 t).

(** * Properties *)

Section Windows.
Context {A : Type}.

(** Pushing onto a window of the first [n] days keeps it a prefix. *)
Lemma firstn_snoc_window (n i : nat) (l w : list A) (x : A) :
  List.length l = i -> w = firstn n l ->
  (if Nat.ltb i n then (w ++ [x])%list else w) = firstn n (l ++ [x])%list.
Proof.
  intros Hl Hw; subst w. rewrite firstn_app.
  destruct (Nat.ltb_spec i n) as [Hlt | Hge].
  - rewrite (firstn_all2 l) by lia.
    replace (n - List.length l) with (S (n - List.length l - 1)) by lia.
    simpl. rewrite firstn_nil. reflexivity.
  - replace (n - List.length l) with 0 by lia.
    simpl. rewrite app_nil_r. reflexivity.
Qed.

End Windows.

Lemma ok_pair_inj {A : Type} (x y : A) (s s' : nat) : (Ok x, s) = (Ok y, s') -> x = y.
Proof. intros E. injection E. auto. Qed.

Section MockFacts.
Context {N : Type} `{JsNum N} `{JsMath N}.
Variable rand : nat -> N.

Lemma push_day_inv (i : nat) (x y : N) (t : Trends N) :
  prefix_inv i t -> prefix_inv (S i) (push_day i x y t).
Proof.
  intros (H30 & Hp30 & H14 & H7 & Hp14 & Hp7).
  unfold prefix_inv, push_day; cbn [d30 d14 d7 p30 p14 p7].
  rewrite !length_app; cbn [List.length].
  repeat split; try lia; apply firstn_snoc_window with (i := i); assumption.
Qed.

Lemma trend_loop_inv (bd bp v : N) :
  forall k i t s, prefix_inv i t ->
  exists t' s', trend_loop rand bd bp v i k t s = (Ok t', s') /\ prefix_inv (i + k) t'.
Proof.
  induction k as [| k IH]; intros i t s Hinv.
  - exists t, s. split; [reflexivity | now rewrite Nat.add_0_r].
  - cbn [trend_loop]. unfold mbind, draw.
    match goal with
    | |- exists _ _, trend_loop _ _ _ _ _ _ (push_day _ ?x ?y _) _ = _ /\ _ =>
      destruct (IH (S i) (push_day i x y t) (S s) (push_day_inv i x y t Hinv))
        as (t' & s' & Heq & Hinv')
    end.
    exists t', s'. split; [exact Heq |].
    now replace (i + S k) with (S i + k) by lia.
Qed.

Lemma empty_trends_inv : prefix_inv 0 (@empty_trends N).
Proof. repeat split. Qed.

(** What a successful run of [generateMockForecast] is made of. *)
Lemma generateMockForecast_inv (env : Env) (req : ForecastRequest N) s f s' :
  generateMockForecast rand env req s = (Ok f, s') ->
  exists bd bp v t s1,
    trend_loop rand bd bp v 0 30 empty_trends s = (Ok t, s1) /\
    fc_quantity f = JNum (baseQuantity_of req) /\
    fc_demandTrend f = {| day7 := as_series (d7 t); day14 := as_series (d14 t);
                          day30 := as_series (d30 t) |} /\
    fc_priceTrend f = {| day7 := as_series (p7 t); day14 := as_series (p14 t);
                         day30 := as_series (p30 t) |} /\
    fc_glutRisk f = classify_glut (baseQuantity_of req)
                      (jdiv (fold_left jadd (d30 t) (jlit 0%Q)) (jlit 30%Q)) /\
    fc_recommendedQuantity f =
      JNum (jround (jmul (jdiv (fold_left jadd (d30 t) (jlit 0%Q)) (jlit 30%Q)) (jlit (9 # 10)))) /\
    fc_source f = "mock-data".
Proof.
  unfold generateMockForecast.
  destruct (crop_params (req_crop req)) as [[bp v] dm].
  unfold mbind at 1.
  destruct (trend_loop rand _ bp v 0 30 empty_trends s) as [[t | e] s1] eqn:Ht.
  2:{ intros Hrun. cbv beta iota in Hrun. discriminate Hrun. }
  intros Hrun.
  exists (jround (jmul (baseQuantity_of req) dm)), bp, v, t, s1. split; [exact Ht |].
  unfold mbind in Hrun.
  destruct (obj_lookup marketsByDistrict (req_district req));
    cbn [mret mthrow] in Hrun; [| discriminate Hrun |];
    destruct (generateMarketHeatmap rand _ s1) as [[heat | e] s2];
    try discriminate Hrun;
    cbv beta iota in Hrun; unfold mret in Hrun;
    apply ok_pair_inj in Hrun; subst f;
    cbn [fc_quantity fc_demandTrend fc_priceTrend fc_glutRisk fc_recommendedQuantity fc_source];
    repeat split.
Qed.

End MockFacts.

Section MockClaims.
Context {N : Type} `{JsNum N} `{JsMath N}.
Variable rand : nat -> N.

Lemma mock_trends_shape (env : Env) (req : ForecastRequest N) s f s' :
  generateMockForecast rand env req s = (Ok f, s') ->
  exists t, prefix_inv 30 t /\
    fc_demandTrend f = {| day7 := as_series (d7 t); day14 := as_series (d14 t);
                          day30 := as_series (d30 t) |} /\
    fc_priceTrend f = {| day7 := as_series (p7 t); day14 := as_series (p14 t);
                         day30 := as_series (p30 t) |}.
Proof.
  intros Hrun.
  destruct (generateMockForecast_inv rand env req s f s' Hrun)
    as (bd & bp & v & t & s1 & Ht & _ & Hd & Hp & _).
  destruct (trend_loop_inv rand bd bp v 30 0 empty_trends s empty_trends_inv)
    as (t' & s1' & Ht' & Hinv).
  rewrite Ht in Ht'. injection Ht' as <- <-.
  exists t. auto.
Qed.

(** C2: in every forecast the Mock Forecast Generator returns, the 30-day
    demand and price series have 30 entries, the 14-day series is the first
    14 entries of the 30-day one and the 7-day series the first 7 entries of
    the 14-day one (one underlying series, three windows). *)
Theorem mock_series_prefix (env : Env) (req : ForecastRequest N) s f s' :
  generateMockForecast rand env req s = (Ok f, s') ->
  let dt := fc_demandTrend f in
  let pt := fc_priceTrend f in
  List.length (day30 dt) = 30 /\ List.length (day30 pt) = 30 /\
  day7 dt = firstn 7 (day14 dt) /\ day14 dt = firstn 14 (day30 dt) /\
  day7 pt = firstn 7 (day14 pt) /\ day14 pt = firstn 14 (day30 pt).
Proof.
  intros Hrun.
  destruct (mock_trends_shape env req s f s' Hrun)
    as (t & (H30 & Hp30 & H14 & H7 & Hp14 & Hp7) & Hd & Hp).
  cbv zeta. rewrite Hd, Hp. cbn [day7 day14 day30]. unfold as_series.
  rewrite !length_map, H30, Hp30, H14, H7, Hp14, Hp7, !firstn_map, !firstn_firstn.
  repeat split.
Qed.

(** C3: the glut risk of a mock forecast compares the requested quantity
    ([inputData.quantity || 100], echoed as [quantity]) with the mean of the
    30 generated demand values, the 1.5x threshold tested before the 1.2x one:
    "high" above 1.5x the mean, else "medium" above 1.2x, else "low"; it is
    one of these three labels. *)
Theorem mock_glut_risk_classification (env : Env) (req : ForecastRequest N) s f s' :
  generateMockForecast rand env req s = (Ok f, s') ->
  exists demand : list N,
    day30 (fc_demandTrend f) = map JNum demand /\ List.length demand = 30 /\
    fc_quantity f = JNum (baseQuantity_of req) /\
    (let mean := jdiv (fold_left jadd demand (jlit 0%Q)) (jlit 30%Q) in
     fc_glutRisk f =
       (if jgt (baseQuantity_of req) (jmul mean (jlit (3 # 2))) then "high"
        else if jgt (baseQuantity_of req) (jmul mean (jlit (6 # 5))) then "medium"
        else "low")) /\
    In (fc_glutRisk f) ["low"; "medium"; "high"].
Proof.
  intros Hrun.
  destruct (generateMockForecast_inv rand env req s f s' Hrun)
    as (bd & bp & v & t & s1 & Ht & Hq & Hd & _ & Hg & _ & _).
  destruct (mock_trends_shape env req s f s' Hrun) as (t' & (H30 & _) & Hd' & _).
  rewrite Hd in Hd'. injection Hd' as _ _ E30. unfold as_series in E30.
  exists (d30 t). rewrite Hd. cbn [day30].
  split; [reflexivity |]. split.
  - apply (f_equal (@List.length _)) in E30. rewrite !length_map in E30.
    rewrite E30; exact H30.
  - split; [exact Hq |]. rewrite Hg. unfold classify_glut. split; [reflexivity |].
    destruct (jgt _ _); [| destruct (jgt _ _)]; simpl; auto.
Qed.

(** C7: the recommended quantity of a mock forecast is
    [Math.round(0.9 * mean)] of its 30 generated demand values. *)
Theorem mock_recommended_quantity (env : Env) (req : ForecastRequest N) s f s' :
  generateMockForecast rand env req s = (Ok f, s') ->
  exists demand : list N,
    day30 (fc_demandTrend f) = map JNum demand /\
    fc_recommendedQuantity f =
      JNum (jround (jmul (jdiv (fold_left jadd demand (jlit 0%Q)) (jlit 30%Q)) (jlit (9 # 10)))).
Proof.
  intros Hrun.
  destruct (generateMockForecast_inv rand env req s f s' Hrun)
    as (bd & bp & v & t & s1 & _ & _ & Hd & _ & _ & Hr & _).
  exists (d30 t). rewrite Hd. split; [reflexivity | exact Hr].
Qed.

End MockClaims.

Section FormatFacts.
Context {N : Type} `{JsNum N} `{JsMath N}.
Variable rand : nat -> N.

Lemma js_get_own (ps : list (string * jsval N)) (k : string) (v : jsval N) :
  assoc k ps = Some v -> js_get (JObj ps) k = Ok v.
Proof. intros Hk. unfold js_get, obj_lookup. rewrite Hk. reflexivity. Qed.

Lemma map_get_objs (k : string) (items : list (list (string * jsval N))) :
  is_proto_member k = false ->
  map_get (map JObj items) k = Ok (map (item_value k) items).
Proof.
  intros Hk. induction items as [| it items IH]; [reflexivity |].
  cbn [map map_get]. unfold js_get, obj_lookup, item_value.
  rewrite IH. destruct (assoc k it); [reflexivity |]. rewrite Hk. reflexivity.
Qed.

Lemma trend_of_objs (k : string) (items : list (list (string * jsval N))) :
  is_proto_member k = false ->
  trend_of (JArr (map JObj items)) k =
  Ok {| day7 := firstn 7 (map (item_value k) items);
        day14 := firstn 14 (map (item_value k) items);
        day30 := map (item_value k) items |}.
Proof.
  intros Hk. unfold trend_of, slice_map.
  rewrite !firstn_map, !map_get_objs by exact Hk. reflexivity.
Qed.

(** The true part of the heatmap's contract: on an array of strings it
    succeeds, keeps length, order and names, and labels demand and risk. *)
Lemma heatmap_loop_strings (names : list string) (i s : nat) :
  exists l s', heatmap_loop rand (map JStr names) i s = (Ok l, s') /\
    map mk_name l = map JStr names /\
    Forall (fun m => mk_demand m = "high") l /\
    map mk_risk l = map (fun j => if Nat.eqb j 0 then "low" else "medium")
                        (seq i (List.length names)).
Proof.
  revert i s. induction names as [| n names IH]; intros i s.
  - exists [], s. repeat split; constructor.
  - cbn [map heatmap_loop]. unfold mbind at 1.
    assert (He : exists c s1, heatmap_entry rand (JStr n) i s = (Ok c, s1) /\
                   mk_name c = JStr n /\ mk_demand c = "high" /\
                   mk_risk c = if Nat.eqb i 0 then "low" else "medium").
    { unfold heatmap_entry, mbind, mlift, draw, mret. cbn [to_key].
      destruct (obj_lookup baseCoordinates n) as [[la ln] | k |];
        eexists; eexists; (split; [reflexivity | repeat split]). }
    destruct He as (c & s1 & Hc & Hn & Hd & Hr). rewrite Hc.
    unfold mbind. destruct (IH (S i) s1) as (l & s2 & Hl & Hln & Hld & Hlr).
    rewrite Hl. exists (c :: l), s2. unfold mret.
    split; [reflexivity |]. cbn [map List.length seq].
    rewrite Hn, Hln, Hr, Hlr. repeat split; auto.
Qed.

End FormatFacts.

Section FormatClaims.
Context {N : Type} `{JsNum N} `{JsMath N}.
Variable rand : nat -> N.

(** C4: for a schema object (trend items are objects, [glut_risk] and the
    two dates are strings, the quantity is a number, the markets are
    strings), [formatForecastResponse] succeeds and its 30-day series are the
    items' [expected_demand_kg] / [expected_price_per_kg] values in order,
    one per item and not padded, the 14-day series their first [min(n,14)]
    and the 7-day series their first [min(n,7)]. *)
Theorem format_trend_windows (ps : list (string * jsval N))
    (items : list (list (string * jsval N))) (gr pt st : string) (rq : N)
    (markets : list string) (req : ForecastRequest N) (s : nat)
    (Htrend : assoc "forecast_trend" ps = Some (JArr (map JObj items)))
    (Hglut : assoc "glut_risk" ps = Some (JStr gr))
    (Hplant : assoc "optimal_planting_time" ps = Some (JStr pt))
    (Hsell : assoc "optimal_selling_time" ps = Some (JStr st))
    (Hrq : assoc "recommended_quantity_kg" ps = Some (JNum rq))
    (Hsm : assoc "suggested_markets" ps = Some (JArr (map JStr markets))) :
  exists f s', formatForecastResponse rand (JObj ps) req s = (Ok f, s') /\
    let dem := map (item_value "expected_demand_kg") items in
    let pri := map (item_value "expected_price_per_kg") items in
    day30 (fc_demandTrend f) = dem /\
    day14 (fc_demandTrend f) = firstn 14 dem /\
    day7 (fc_demandTrend f) = firstn 7 dem /\
    day30 (fc_priceTrend f) = pri /\
    day14 (fc_priceTrend f) = firstn 14 pri /\
    day7 (fc_priceTrend f) = firstn 7 pri /\
    List.length (day30 (fc_demandTrend f)) = List.length items.
Proof.
  unfold formatForecastResponse, mbind at 1, mlift.
  rewrite (js_get_own _ _ _ Htrend). cbn [rbind].
  rewrite !trend_of_objs by reflexivity. cbn [rbind].
  rewrite (js_get_own _ _ _ Hglut), (js_get_own _ _ _ Hplant), (js_get_own _ _ _ Hsell),
          (js_get_own _ _ _ Hrq), (js_get_own _ _ _ Hsm).
  cbn [rbind].
  destruct (js_get (JObj ps) "action_summary") as [a | e] eqn:Ea;
    [| unfold js_get in Ea; discriminate Ea].
  cbn [rbind to_string_ok ensure].
  assert (Hall : forallb to_string_ok (map (@JStr N) markets) = true).
  { clear. induction markets as [| m ms IHm]; [reflexivity | exact IHm]. }
  rewrite Hall. cbn [rbind ensure].
  unfold mbind, generateMarketHeatmap.
  destruct (heatmap_loop_strings rand markets 0 s) as (l1 & s1 & H1 & _).
  rewrite H1.
  destruct (heatmap_loop_strings rand markets 0 s1) as (l2 & s2 & H2 & _).
  rewrite H2. unfold mret. eexists; eexists. split; [reflexivity |].
  cbn [fc_demandTrend fc_priceTrend day7 day14 day30].
  repeat split. apply length_map.
Qed.

End FormatClaims.

Section ValidateFacts.
Context {N : Type} `{JsNum N} `{JsMath N}.

Lemma js_get_plain (ps : list (string * jsval N)) (k : string) :
  is_proto_member k = false -> js_get (JObj ps) k = Ok (item_value k ps).
Proof. intros Hk. unfold js_get, obj_lookup, item_value. rewrite Hk. destruct (assoc k ps); reflexivity. Qed.

(** On an object, [validateForecastData] depends on the two fields only. *)
Lemma validate_obj_eq (ps : list (string * jsval N)) :
  validateForecastData (JObj ps) =
  (let ft := item_value "forecast_trend" ps in
   let gr := item_value "glut_risk" ps in
   if negb (truthy ft) then Err (ValidationError "Missing required field: forecast_trend")
   else if negb (truthy gr) then Err (ValidationError "Missing required field: glut_risk")
   else match ft with
        | JArr (_ :: _) =>
          match gr with
          | JStr s => if existsb (String.eqb s) ["Low"; "Medium"; "High"] then Ok tt
                      else Err (ValidationError "glut_risk must be Low, Medium, or High")
          | _ => Err (ValidationError "glut_risk must be Low, Medium, or High")
          end
        | _ => Err (ValidationError "forecast_trend must be a non-empty array")
        end).
Proof.
  unfold validateForecastData, check_required.
  rewrite !js_get_plain by reflexivity. cbv zeta. cbn [rbind].
  destruct (negb (truthy (item_value "forecast_trend" ps))); [reflexivity |].
  destruct (negb (truthy (item_value "glut_risk" ps))); [reflexivity |].
  cbn [rbind]. destruct (item_value "forecast_trend" ps) as [| | | | | [|]| | |]; reflexivity.
Qed.

Lemma validate_obj_fails_with_validation_error (ps : list (string * jsval N)) :
  validateForecastData (JObj ps) = Ok tt \/
  exists msg, validateForecastData (JObj ps) = Err (ValidationError msg).
Proof.
  rewrite validate_obj_eq. cbv zeta.
  destruct (negb (truthy (item_value "forecast_trend" ps))); [right; eauto |].
  destruct (negb (truthy (item_value "glut_risk" ps))); [right; eauto |].
  destruct (item_value "forecast_trend" ps) as [| | | | | [|]| | |]; try (right; eauto; fail).
  destruct (item_value "glut_risk" ps); try (right; eauto; fail).
  destruct (existsb _ _); [left | right]; eauto.
Qed.

End ValidateFacts.

Section ValidateClaims.
Context {N : Type} `{JsNum N} `{JsMath N}.

(** C5 (amended): [validateForecastData] accepts exactly the objects whose
    [forecast_trend] is a non-empty array and whose [glut_risk] is one of
    the strings ["Low"], ["Medium"], ["High"] (case-sensitive). Every
    rejection of an object is a [ValidationError]. In particular a missing
    [glut_risk], [glut_risk = "Extreme"] and an empty [forecast_trend] are
    rejected, and so is a [forecast_trend] that is present but not an
    array. *)
Theorem validate_accepts_iff :
  (forall data : jsval N,
     validateForecastData data = Ok tt <->
     exists ps it items g, data = JObj ps /\
       assoc "forecast_trend" ps = Some (JArr (it :: items)) /\
       assoc "glut_risk" ps = Some (JStr g) /\ In g ["Low"; "Medium"; "High"]) /\
  (forall ps : list (string * jsval N),
     validateForecastData (JObj ps) = Ok tt \/
     exists msg, validateForecastData (JObj ps) = Err (ValidationError msg)) /\
  (forall ps : list (string * jsval N),
     assoc "glut_risk" ps = None -> validateForecastData (JObj ps) <> Ok tt) /\
  (forall ps : list (string * jsval N),
     assoc "glut_risk" ps = Some (JStr "Extreme") -> validateForecastData (JObj ps) <> Ok tt) /\
  (forall ps : list (string * jsval N),
     assoc "forecast_trend" ps = Some (JArr []) -> validateForecastData (JObj ps) <> Ok tt) /\
  (forall (ps : list (string * jsval N)) (v : jsval N),
     assoc "forecast_trend" ps = Some v -> (forall l, v <> JArr l) ->
     validateForecastData (JObj ps) <> Ok tt).
Proof.
  assert (Hiff : forall data : jsval N,
     validateForecastData data = Ok tt <->
     exists ps it items g, data = JObj ps /\
       assoc "forecast_trend" ps = Some (JArr (it :: items)) /\
       assoc "glut_risk" ps = Some (JStr g) /\ In g ["Low"; "Medium"; "High"]).
  { intros data. split.
    - intros Hv. destruct data as [| | | | | | ps | |]; try discriminate Hv.
      exists ps. rewrite validate_obj_eq in Hv. cbv zeta in Hv. unfold item_value in Hv.
      destruct (assoc "forecast_trend" ps) as [ft |]; [| discriminate Hv].
      destruct (assoc "glut_risk" ps) as [gr |];
        [| destruct (negb (truthy ft)); discriminate Hv].
      destruct (negb (truthy ft)); [discriminate Hv |].
      destruct (negb (truthy gr)); [discriminate Hv |].
      destruct ft as [| | | | | [| it items] | | |]; try discriminate Hv.
      destruct gr as [| | | | g | | | |]; try discriminate Hv.
      exists it, items, g. repeat split.
      destruct (existsb (String.eqb g) _) eqn:Eg; [| discriminate Hv].
      apply existsb_exists in Eg. destruct Eg as (x & Hx & Hgx).
      apply String.eqb_eq in Hgx. subst x. exact Hx.
    - intros (ps & it & items & g & -> & Ht & Hg & Hin).
      rewrite validate_obj_eq. cbv zeta. unfold item_value. rewrite Ht, Hg.
      assert (Hne : String.eqb g "" = false).
      { destruct Hin as [<- | [<- | [<- | []]]]; reflexivity. }
      cbn [truthy negb]. rewrite Hne. cbn [negb].
      destruct Hin as [<- | [<- | [<- | []]]]; reflexivity. }
  split; [exact Hiff |]. split; [apply validate_obj_fails_with_validation_error |].
  repeat split.
  - intros ps Hg Hv. apply Hiff in Hv. destruct Hv as (ps' & it & items & g & E & _ & Hg' & _).
    injection E as <-. congruence.
  - intros ps Hg Hv. apply Hiff in Hv. destruct Hv as (ps' & it & items & g & E & _ & Hg' & Hin).
    injection E as <-. rewrite Hg in Hg'. injection Hg' as <-.
    destruct Hin as [E | [E | [E | []]]]; discriminate E.
  - intros ps Ht Hv. apply Hiff in Hv. destruct Hv as (ps' & it & items & g & E & Ht' & _).
    injection E as <-. congruence.
  - intros ps v Ht Hnot Hv. apply Hiff in Hv. destruct Hv as (ps' & it & items & g & E & Ht' & _).
    injection E as <-. rewrite Ht in Ht'. injection Ht' as ->. exact (Hnot _ eq_refl).
Qed.

End ValidateClaims.

(** C5 (counterexample): an object whose [forecast_trend] is present and
    truthy but an object, not an array, with [glut_risk = "Low"], meets none
    of the claimed rejection conditions and is still rejected. *)
Lemma validate_nonarray_trend_rejected :
  let data : jsval Q :=
    JObj [("forecast_trend", JObj [("date", JStr "2026-03-01")]); ("glut_risk", JStr "Low")] in
  validateForecastData data =
    Err (ValidationError "forecast_trend must be a non-empty array") /\
  js_get data "forecast_trend" = Ok (JObj [("date", JStr "2026-03-01")]) /\
  js_get data "glut_risk" = Ok (JStr "Low").
Proof. repeat split. Qed.

Section CleanFacts.

Lemma str_app_assoc (a b c : string) : (a ++ b) ++ c = a ++ (b ++ c).
Proof. induction a as [| x a IH]; simpl; [reflexivity | rewrite IH; reflexivity]. Qed.

Lemma str_length_app (a b : string) : String.length (a ++ b) = String.length a + String.length b.
Proof. induction a as [| x a IH]; simpl; [reflexivity | rewrite IH; reflexivity]. Qed.

Lemma index_of_app (c : ascii) (pre rest : string) :
  index_of c pre = None -> index_of c (pre ++ String c rest) = Some (String.length pre).
Proof.
  induction pre as [| a pre IH]; intros Hpre; simpl.
  - rewrite Ascii.eqb_refl. reflexivity.
  - simpl in Hpre. destruct (Ascii.eqb c a); [discriminate Hpre |].
    destruct (index_of c pre); [discriminate Hpre |]. rewrite IH; reflexivity.
Qed.

Lemma last_index_of_app (c : ascii) (s post : string) :
  last_index_of c post = None -> last_index_of c (s ++ String c post) = Some (String.length s).
Proof.
  intros Hpost. induction s as [| a s IH]; simpl.
  - rewrite Hpost, Ascii.eqb_refl. reflexivity.
  - rewrite IH. reflexivity.
Qed.

Lemma substring_skip (pre rest : string) (n : nat) :
  substring (String.length pre) n (pre ++ rest) = substring 0 n rest.
Proof. induction pre as [| a pre IH]; [reflexivity | exact IH]. Qed.

Lemma substring_prefix (a b : string) : substring 0 (String.length a) (a ++ b) = a.
Proof.
  induction a as [| x a IH]; simpl.
  - destruct b; reflexivity.
  - rewrite IH. reflexivity.
Qed.

End CleanFacts.

Section CleanClaims.

(** C6 (amended): after trimming, [cleanJsonResponse] deletes every
    ["```json"] and every ["```"] occurrence together with the whitespace
    after it, anywhere in the text (inside JSON strings too). If the result
    has a ['{'] followed later by a ['}'], it returns the slice from the first
    ['{'] to the last ['}'] inclusive; if it has no ['{'], no ['}'], or its
    last ['}'] comes before its first ['{'], it returns the whole stripped
    text, which is then given to [JSON.parse] as it is. The fenced reply with
    leading prose is recovered as its object. *)
Theorem clean_slices_first_to_last_brace :
  (forall r pre body post : string,
     replace_fence "```" (replace_fence "```json" (js_trim r)) =
       pre ++ String "{"%char (body ++ String "}"%char post) ->
     index_of "{"%char pre = None -> last_index_of "}"%char post = None ->
     cleanJsonResponse r = String "{"%char (body ++ "}")) /\
  (forall r : string,
     let stripped := replace_fence "```" (replace_fence "```json" (js_trim r)) in
     (index_of "{"%char stripped = None \/ last_index_of "}"%char stripped = None \/
      exists i j, index_of "{"%char stripped = Some i /\
                  last_index_of "}"%char stripped = Some j /\ j < i) ->
     cleanJsonResponse r = stripped) /\
  (forall (N : Type) (HN : JsNum N) (HM : JsMath N) (ai : Env) (rand : nat -> N) (req : ForecastRequest N)
          (r : string) (s : nat),
     ai_outcome ai = Ok r ->
     fst (ai_path rand ai req s) = fst ((
       data <-- mlift (JSON_parse (cleanJsonResponse r)) ;;;
       _ <-- mlift (validateForecastData data) ;;;
       formatForecastResponse rand data req) s)) /\
  cleanJsonResponse fenced_reply = "{" ++ quote "a" ++ ": 1}" /\
  cleanJsonResponse fence_in_string_reply = "{" ++ quote "note" ++ ": " ++ quote "see here" ++ "}".
Proof.
  split; [| split; [| split; [| split]]].
  - intros r pre body post Hs Hpre Hpost. unfold cleanJsonResponse. cbv zeta.
    rewrite Hs, (index_of_app _ _ _ Hpre).
    replace (pre ++ String "{"%char (body ++ String "}"%char post))
      with ((pre ++ String "{"%char body) ++ String "}"%char post)
      by (rewrite str_app_assoc; reflexivity).
    rewrite (last_index_of_app _ _ _ Hpost), str_length_app. cbn [String.length].
    replace (Nat.ltb (String.length pre) (String.length pre + S (String.length body)))
      with true by (symmetry; apply Nat.ltb_lt; lia).
    rewrite str_app_assoc.
    replace (String.length pre + S (String.length body) + 1 - String.length pre)
      with (String.length (String "{"%char (body ++ "}"))) by
      (cbn [String.length]; rewrite str_length_app; cbn [String.length]; lia).
    rewrite substring_skip.
    replace (String "{"%char body ++ String "}"%char post)
      with (String "{"%char (body ++ "}") ++ post)
      by (simpl; rewrite str_app_assoc; reflexivity).
    apply substring_prefix.
  - intros r stripped Hcase. unfold cleanJsonResponse. cbv zeta. fold stripped.
    destruct Hcase as [-> | [Hl | (i & j & Hi & Hj & Hji)]].
    + reflexivity.
    + rewrite Hl. destruct (index_of _ _); reflexivity.
    + rewrite Hi, Hj. replace (Nat.ltb i j) with false by (symmetry; apply Nat.ltb_ge; lia).
      reflexivity.
  - intros N HN HM ai rand req r s Hr. unfold ai_path, mbind at 1, mlift at 1.
    rewrite Hr. reflexivity.
  - vm_compute. reflexivity.
  - vm_compute. reflexivity.
Qed.

(** C6 (counterexample): a reply with no ['{'] / ['}'] pair is not rejected
    by the cleaning and parsing step: ["[1]"] is kept whole and parses to an
    array. The AI path then fails in validation, with a missing
    [forecast_trend], not for want of a brace pair. *)
Lemma clean_no_brace_pair_parsed_whole :
  cleanJsonResponse "[1]" = "[1]" /\
  JSON_parse (N := Q) (cleanJsonResponse "[1]") = Ok (JArr [JNum 1%Q]) /\
  fst (ai_path sample_rand (sample_env true (Ok "[1]") utc_zone) (sample_request "Rice" "Karnataka") O)
    = Err (ValidationError "Missing required field: forecast_trend").
Proof. vm_compute. repeat split. Qed.

End CleanClaims.

Section VolatilityFacts.
Local Open Scope R_scope.

Lemma Q2R_of_nat (n : nat) : Q2R (inject_Z (Z.of_nat n)) = INR n.
Proof. unfold Q2R, inject_Z. cbn [Qnum Qden]. rewrite INR_IZR_INZ. simpl IZR at 2. field. Qed.

Lemma Q2R_0 : Q2R 0%Q = 0.
Proof. unfold Q2R. simpl. field. Qed.

Lemma Q2R_15 : Q2R (15 # 100) = 15 / 100.
Proof. unfold Q2R. simpl. field. Qed.

Lemma Q2R_8 : Q2R (8 # 100) = 8 / 100.
Proof. unfold Q2R. simpl. field. Qed.

(** [volatility_of] over the reals, with the [let]s unfolded. *)
Lemma volatility_of_R (l : list R) :
  volatility_of l =
  sqrt (fold_left (fun a b => a + (b - fold_left Rplus l 0 / INR (List.length l)) *
                                  (b - fold_left Rplus l 0 / INR (List.length l))) l 0
        / INR (List.length l))
  / (fold_left Rplus l 0 / INR (List.length l)).
Proof.
  unfold volatility_of, js_length. cbn [jadd jsub jmul jdiv jlit jsqrt R_JsNum R_JsSqrt].
  rewrite Q2R_of_nat, Q2R_0. reflexivity.
Qed.

Lemma calculateVolatility_R (l : list R) :
  calculateVolatility l =
  if Rlt_dec (15 / 100) (volatility_of l) then "high"%string
  else if Rlt_dec (8 / 100) (volatility_of l) then "medium"%string
  else "low"%string.
Proof.
  unfold calculateVolatility. cbn [jgt jlit R_JsNum]. rewrite Q2R_15, Q2R_8.
  destruct (Rlt_dec _ _); [reflexivity |]. destruct (Rlt_dec _ _); reflexivity.
Qed.

Lemma fold_plus_repeat (p : R) (k : nat) (a : R) :
  fold_left Rplus (repeat p k) a = a + INR k * p.
Proof.
  revert a. induction k as [| k IH]; intros a; simpl repeat; simpl fold_left.
  - simpl. ring.
  - rewrite IH, S_INR. ring.
Qed.

Lemma fold_sq_repeat (p m : R) (k : nat) (a : R) :
  fold_left (fun a b => a + (b - m) * (b - m)) (repeat p k) a = a + INR k * ((p - m) * (p - m)).
Proof.
  revert a. induction k as [| k IH]; intros a; simpl repeat; simpl fold_left.
  - simpl. ring.
  - rewrite IH, S_INR. ring.
Qed.

(** Two flat halves: [k] days at [m + d] and [k] days at [m - d]. *)
Lemma volatility_two_levels (m d : R) (k : nat) :
  (0 < k)%nat -> 0 < m -> 0 <= d ->
  volatility_of (repeat (m + d) k ++ repeat (m - d) k) = d / m.
Proof.
  intros Hk Hm Hd. rewrite volatility_of_R.
  assert (HkR : 0 < INR k) by (apply lt_0_INR; exact Hk).
  rewrite length_app, !repeat_length, plus_INR.
  assert (Hmean : fold_left Rplus (repeat (m + d) k ++ repeat (m - d) k) 0 / (INR k + INR k) = m).
  { rewrite fold_left_app, !fold_plus_repeat. field. lra. }
  rewrite Hmean, fold_left_app, !fold_sq_repeat.
  replace ((0 + INR k * ((m + d - m) * (m + d - m)) + INR k * ((m - d - m) * (m - d - m)))
           / (INR k + INR k)) with (d * d) by (field; lra).
  rewrite sqrt_square by exact Hd. reflexivity.
Qed.

End VolatilityFacts.

Section VolatilityClaims.
Local Open Scope R_scope.

(** C8 (amended): over exact reals, for a price series with positive mean
    and with [v] the ratio of the population standard deviation to the mean
    computed by [calculateVolatility], the bucket is ["high"] exactly when
    [v > 0.15], ["medium"] exactly when [0.08 < v <= 0.15] and ["low"]
    exactly when [v <= 0.08]: both comparisons are strict, so [v = 0.15] is
    ["medium"] and [v = 0.08] is ["low"]. A constant (zero-variance) series
    with positive mean is ["low"]. (A positive mean keeps every division
    away from zero, where JavaScript gives [NaN] or [Infinity].) *)
Theorem volatility_bucket_thresholds (prices : list R) :
  0 < fold_left Rplus prices 0 / INR (List.length prices) ->
  (calculateVolatility prices = "high"%string <-> 15 / 100 < volatility_of prices) /\
  (calculateVolatility prices = "medium"%string <->
     8 / 100 < volatility_of prices <= 15 / 100) /\
  (calculateVolatility prices = "low"%string <-> volatility_of prices <= 8 / 100) /\
  (forall p : R, prices = repeat p (List.length prices) ->
     volatility_of prices = 0 /\ calculateVolatility prices = "low"%string).
Proof.
  intros Hmean. split; [| split; [| split]].
  1-3: rewrite calculateVolatility_R;
    destruct (Rlt_dec (15 / 100) (volatility_of prices)) as [Hh | Hh];
      [| destruct (Rlt_dec (8 / 100) (volatility_of prices)) as [Hm | Hm]];
      split; intros;
      repeat match goal with Hc : _ /\ _ |- _ => destruct Hc end;
      try discriminate; try reflexivity; lra.
  intros p Hc.
  set (k := List.length prices) in *. clearbody k. subst prices.
  destruct k as [| n].
  { exfalso. cbn [repeat fold_left INR] in Hmean. unfold Rdiv in Hmean.
    rewrite Rmult_0_l in Hmean. lra. }
  assert (Hv : volatility_of (repeat p (S n)) = 0).
  { rewrite volatility_of_R, repeat_length, fold_plus_repeat.
    assert (HnR : 0 < INR (S n)) by apply lt_0_INR, Nat.lt_0_succ.
    replace ((0 + INR (S n) * p) / INR (S n)) with p by (field; lra).
    rewrite fold_sq_repeat.
    replace ((0 + INR (S n) * ((p - p) * (p - p))) / INR (S n)) with 0 by (field; lra).
    rewrite sqrt_0. unfold Rdiv. apply Rmult_0_l. }
  split; [exact Hv |].
  rewrite calculateVolatility_R, Hv.
  destruct (Rlt_dec (15 / 100) 0); [lra |].
  destruct (Rlt_dec (8 / 100) 0); [lra | reflexivity].
Qed.

(** C8 (counterexample): fifteen days at 115 then fifteen at 85 have mean
    100 and standard deviation 15, so [v = 0.15] (exactly, also in IEEE
    doubles: every step is exact and [15 / 100] rounds to the literal
    [0.15]), yet the bucket is ["medium"], not ["high"]; fifteen days at 108
    then fifteen at 92 give [v = 0.08] and ["low"], not ["medium"]. *)
Lemma volatility_boundary_buckets :
  volatility_of (repeat 115 15 ++ repeat 85 15) = 15 / 100 /\
  calculateVolatility (repeat 115 15 ++ repeat 85 15) = "medium"%string /\
  volatility_of (repeat 108 15 ++ repeat 92 15) = 8 / 100 /\
  calculateVolatility (repeat 108 15 ++ repeat 92 15) = "low"%string.
Proof.
  assert (Hhi : volatility_of (repeat 115 15 ++ repeat 85 15) = 15 / 100).
  { replace 115 with (100 + 15) by ring. replace 85 with (100 - 15) by ring.
    apply volatility_two_levels; [lia | lra | lra]. }
  assert (Hlo : volatility_of (repeat 108 15 ++ repeat 92 15) = 8 / 100).
  { replace 108 with (100 + 8) by ring. replace 92 with (100 - 8) by ring.
    apply volatility_two_levels; [lia | lra | lra]. }
  split; [exact Hhi | split; [| split; [exact Hlo |]]].
  - rewrite calculateVolatility_R, Hhi.
    destruct (Rlt_dec (15 / 100) (15 / 100)); [lra |].
    destruct (Rlt_dec (8 / 100) (15 / 100)); [reflexivity | lra].
  - rewrite calculateVolatility_R, Hlo.
    destruct (Rlt_dec (15 / 100) (8 / 100)); [lra |].
    destruct (Rlt_dec (8 / 100) (8 / 100)); [lra | reflexivity].
Qed.

Lemma volatility_bucket_thresholds_witness :
  let prices := (repeat 115 15 ++ repeat 85 15)%list in
  0 < fold_left Rplus prices 0 / INR (List.length prices) /\
  ((calculateVolatility prices = "high"%string <-> 15 / 100 < volatility_of prices) /\
   (calculateVolatility prices = "medium"%string <->
      8 / 100 < volatility_of prices <= 15 / 100) /\
   (calculateVolatility prices = "low"%string <-> volatility_of prices <= 8 / 100) /\
   (forall p : R, prices = repeat p (List.length prices) ->
      volatility_of prices = 0 /\ calculateVolatility prices = "low"%string)).
Proof.
  intros prices.
  assert (Hm : 0 < fold_left Rplus prices 0 / INR (List.length prices)).
  { unfold prices. rewrite fold_left_app, !fold_plus_repeat, length_app, !repeat_length, plus_INR.
    assert (H15 : 0 < INR 15) by (apply lt_0_INR; lia).
    apply Rdiv_lt_0_compat; lra. }
  split; [exact Hm | exact (volatility_bucket_thresholds prices Hm)].
Defined.

End VolatilityClaims.

Section OrchestratorClaims.
Context {N : Type} `{JsNum N} `{JsMath N}.
Variable rand : nat -> N.

(** C1 (code_bug): [generateForecast] does not always return a forecast.
    With region ["constructor"] (any crop, season, quantity, clock, time zone
    and random stream), whether the credential is missing or the AI call
    failed, the fallback [generateMockForecast] itself throws: the district
    lookup [marketsByDistrict[district]] finds the inherited
    [Object.prototype.constructor], and [suggestedMarkets.slice] is not a
    function. The [TypeError] leaves [generateForecast] uncaught. *)
Theorem generateForecast_throws_on_inherited_district
    (crop season : string) (q : option N) (e : js_error) (avail : bool)
    (t : Z) (tz : TimeZone) (s : nat) :
  fst (generateForecast rand
         {| isAvailable := avail; ai_outcome := Err e; now := t; timezone := tz |}
         {| req_crop := crop; req_district := "constructor"; req_season := season;
            req_quantity := q |} s) = Err TypeError.
Proof.
  assert (Hmock : forall s0, fst (generateMockForecast rand
            {| isAvailable := avail; ai_outcome := Err e; now := t; timezone := tz |}
            {| req_crop := crop; req_district := "constructor"; req_season := season;
               req_quantity := q |} s0) = Err TypeError).
  { intros s0. unfold generateMockForecast.
    destruct (crop_params _) as [[bp v] dm].
    unfold mbind at 1.
    destruct (trend_loop_inv rand (jround (jmul (baseQuantity_of
                {| req_crop := crop; req_district := "constructor"; req_season := season;
                   req_quantity := q |}) dm)) bp v 30 0 empty_trends s0 empty_trends_inv)
      as (tr & s1 & Ht & _).
    rewrite Ht. reflexivity. }
  destruct avail; [| apply Hmock].
  unfold generateForecast. simpl negb. cbv iota.
  unfold ai_path, mbind at 1, mlift. apply Hmock.
Qed.

End OrchestratorClaims.

(** C9 (code_bug): on a server in New York time, at 2026-02-21T00:30Z, the
    mock forecast reports planting on 2026-02-28 and selling on 2026-05-28,
    89 days later: [setDate] adds local calendar days while
    [toISOString] reports the UTC date, and the daylight-saving change in
    between moves the selling instant one hour earlier, across UTC midnight.
    On a UTC server the same run gives 2026-05-29, 90 days later. *)
Theorem mock_dates_new_york_dst :
  (exists f s',
     generateMockForecast sample_rand (sample_env false (Err AITimeout) new_york_2026)
       (sample_request "Rice" "Karnataka") O = (Ok f, s') /\
     fc_optimalPlantingTime f = JStr "2026-02-28" /\
     fc_optimalSellingTime f = JStr "2026-05-28") /\
  (exists f s',
     generateMockForecast sample_rand (sample_env false (Err AITimeout) utc_zone)
       (sample_request "Rice" "Karnataka") O = (Ok f, s') /\
     fc_optimalPlantingTime f = JStr "2026-02-28" /\
     fc_optimalSellingTime f = JStr "2026-05-29") /\
  (days_from_civil 2026 5 28 - days_from_civil 2026 2 28 = 89)%Z.
Proof.
  split; [| split].
  - eexists; eexists. split; [vm_compute; reflexivity | split; reflexivity].
  - eexists; eexists. split; [vm_compute; reflexivity | split; reflexivity].
  - vm_compute. reflexivity.
Qed.

(** C10 (code_bug): on every array of market names the heatmap keeps the
    length, order and names, labels demand ["high"] and risk ["low"] for the
    first record and ["medium"] after it. But a name that is a member of
    [Object.prototype], such as ["toString"], is neither a known market nor
    given a randomized position: [baseCoordinates[market]] is an inherited
    function, whose [[0]] and [[1]] are [undefined], so the record has no
    coordinates. *)
Theorem heatmap_inherited_name_no_coordinates {N : Type} `{JsNum N} `{JsMath N}
    (rand : nat -> N) :
  (forall (names : list string) (s : nat),
     exists l s', generateMarketHeatmap rand (JArr (map JStr names)) s = (Ok l, s') /\
       map mk_name l = map JStr names /\
       Forall (fun m => mk_demand m = "high") l /\
       map mk_risk l = map (fun j => if Nat.eqb j 0 then "low" else "medium")
                           (seq 0 (List.length names))) /\
  (forall s : nat,
     generateMarketHeatmap rand (JArr [JStr "toString"]) s =
     (Ok [{| mk_name := JStr "toString"; mk_lat := JUndef; mk_lng := JUndef;
             mk_demand := "high"; mk_price := jadd (jlit 25%Q) (jmul (rand s) (jlit 15%Q));
             mk_risk := "low" |}], S s)).
Proof.
  split.
  - intros names s. exact (heatmap_loop_strings rand names 0 s).
  - intros s. reflexivity.
Qed.

(** Witnesses: the hypotheses above hold on a concrete run. *)

Lemma mock_series_prefix_witness :
  exists f s', generateMockForecast sample_rand (sample_env false (Err AITimeout) utc_zone)
                 (sample_request "Rice" "Karnataka") O = (Ok f, s') /\
  (let dt := fc_demandTrend f in
   let pt := fc_priceTrend f in
   List.length (day30 dt) = 30 /\ List.length (day30 pt) = 30 /\
   day7 dt = firstn 7 (day14 dt) /\ day14 dt = firstn 14 (day30 dt) /\
   day7 pt = firstn 7 (day14 pt) /\ day14 pt = firstn 14 (day30 pt)).
Proof.
  destruct (generateMockForecast sample_rand (sample_env false (Err AITimeout) utc_zone)
              (sample_request "Rice" "Karnataka") O) as [[f | e] s'] eqn:E.
  - exists f, s'. split; [reflexivity | exact (mock_series_prefix _ _ _ _ _ _ E)].
  - vm_compute in E. discriminate E.
Defined.

Lemma mock_glut_risk_classification_witness :
  exists f s', generateMockForecast sample_rand (sample_env false (Err AITimeout) utc_zone)
                 (sample_request "Rice" "Karnataka") O = (Ok f, s') /\
  exists demand : list Q,
    day30 (fc_demandTrend f) = map JNum demand /\ List.length demand = 30 /\
    fc_quantity f = JNum (baseQuantity_of (sample_request "Rice" "Karnataka")) /\
    (let mean := jdiv (fold_left jadd demand (jlit 0%Q)) (jlit 30%Q) in
     fc_glutRisk f =
       (if jgt (baseQuantity_of (sample_request "Rice" "Karnataka")) (jmul mean (jlit (3 # 2)))
        then "high"
        else if jgt (baseQuantity_of (sample_request "Rice" "Karnataka")) (jmul mean (jlit (6 # 5)))
        then "medium"
        else "low")) /\
    In (fc_glutRisk f) ["low"; "medium"; "high"].
Proof.
  destruct (generateMockForecast sample_rand (sample_env false (Err AITimeout) utc_zone)
              (sample_request "Rice" "Karnataka") O) as [[f | e] s'] eqn:E.
  - exists f, s'. split; [reflexivity | exact (mock_glut_risk_classification _ _ _ _ _ _ E)].
  - vm_compute in E. discriminate E.
Defined.

Lemma mock_recommended_quantity_witness :
  exists f s', generateMockForecast sample_rand (sample_env false (Err AITimeout) utc_zone)
                 (sample_request "Wheat" "Mysore") O = (Ok f, s') /\
  exists demand : list Q,
    day30 (fc_demandTrend f) = map JNum demand /\
    fc_recommendedQuantity f =
      JNum (jround (jmul (jdiv (fold_left jadd demand (jlit 0%Q)) (jlit 30%Q)) (jlit (9 # 10)))).
Proof.
  destruct (generateMockForecast sample_rand (sample_env false (Err AITimeout) utc_zone)
              (sample_request "Wheat" "Mysore") O) as [[f | e] s'] eqn:E.
  - exists f, s'. split; [reflexivity | exact (mock_recommended_quantity _ _ _ _ _ _ E)].
  - vm_compute in E. discriminate E.
Defined.

Lemma format_trend_windows_witness :
  exists f s', formatForecastResponse sample_rand (JObj sample_ai_fields)
                 (sample_request "Tomato" "Mysore") O = (Ok f, s') /\
    let dem := map (item_value "expected_demand_kg") sample_trend_items in
    let pri := map (item_value "expected_price_per_kg") sample_trend_items in
    day30 (fc_demandTrend f) = dem /\
    day14 (fc_demandTrend f) = firstn 14 dem /\
    day7 (fc_demandTrend f) = firstn 7 dem /\
    day30 (fc_priceTrend f) = pri /\
    day14 (fc_priceTrend f) = firstn 14 pri /\
    day7 (fc_priceTrend f) = firstn 7 pri /\
    List.length (day30 (fc_demandTrend f)) = List.length sample_trend_items.
Proof.
  apply (format_trend_windows sample_rand sample_ai_fields sample_trend_items "Medium"
           "2026-03-01" "2026-06-01" 900%Q ["KR Market"; "Hubli Market"]
           (sample_request "Tomato" "Mysore") O); reflexivity.
Defined.

(** * Further properties of the forecast service *)

Section MockExtraFacts.

Lemma proto_member_not_district (d : string) :
  is_proto_member d = true -> assoc d marketsByDistrict = None.
Proof.
  unfold is_proto_member. intros Hd. apply existsb_exists in Hd.
  destruct Hd as (x & Hx & Hdx). apply String.eqb_eq in Hdx. subst x.
  repeat (destruct Hx as [<- | Hx]; [reflexivity |]). destruct Hx.
Qed.

Lemma district_lookup_cases (d : string) :
  is_proto_member d = false ->
  obj_lookup marketsByDistrict d =
  match assoc d marketsByDistrict with Some l => Own l | None => Absent end.
Proof. intros Hd. unfold obj_lookup. destruct (assoc d marketsByDistrict); [reflexivity | now rewrite Hd]. Qed.

End MockExtraFacts.

Section MockOutcome.
Context {N : Type} `{JsNum N} `{JsMath N}.
Variable rand : nat -> N.

Lemma mock_outcome_by_district (env : Env) (req : ForecastRequest N) (s : nat) :
  (is_proto_member (req_district req) = true ->
   fst (generateMockForecast rand env req s) = Err TypeError) /\
  (is_proto_member (req_district req) = false ->
   exists f s', generateMockForecast rand env req s = (Ok f, s')).
Proof.
  unfold generateMockForecast.
  destruct (crop_params (req_crop req)) as [[bp v] dm].
  unfold mbind at 1.
  destruct (trend_loop_inv rand (jround (jmul (baseQuantity_of req) dm)) bp v 30 0
              empty_trends s empty_trends_inv) as (t & s1 & Ht & _).
  rewrite Ht. split.
  - intros Hd. unfold obj_lookup. rewrite (proto_member_not_district _ Hd), Hd. reflexivity.
  - intros Hd. rewrite (district_lookup_cases _ Hd). unfold mbind, generateMarketHeatmap.
    rewrite Ht.
    destruct (assoc (req_district req) marketsByDistrict) as [l |]; unfold mret; cbv beta iota.
    + destruct (heatmap_loop_strings rand l 0 s1) as (heat & s2 & Hh & _).
      rewrite Hh. eexists; eexists; reflexivity.
    + destruct (heatmap_loop_strings rand ["KR Market"; "Yeshwantpur Market";
                  "Bangalore Central Market"] 0 s1) as (heat & s2 & Hh & _).
      rewrite Hh. eexists; eexists; reflexivity.
Qed.

Lemma heatmap_loop_length (l : list (jsval N)) (i s : nat) ms s' :
  heatmap_loop rand l i s = (Ok ms, s') -> List.length ms = List.length l.
Proof.
  revert i s ms s'. induction l as [| m l IH]; intros i s ms s' Hh.
  - cbn in Hh. injection Hh as <- _. reflexivity.
  - cbn [heatmap_loop] in Hh. unfold mbind at 1 in Hh.
    destruct (heatmap_entry rand m i s) as [[e | err] s1]; [| discriminate Hh].
    unfold mbind in Hh. destruct (heatmap_loop rand l (S i) s1) as [[es | err] s2] eqn:El;
      [| discriminate Hh].
    unfold mret in Hh. injection Hh as <- _. cbn. f_equal. exact (IH _ _ _ _ El).
Qed.

(** A crop missing from [crops] takes the parameters of ["Rice"]. *)
Lemma mock_unknown_crop_params_rice (env : Env) (req : ForecastRequest N) (s : nat) :
  obj_lookup crops (req_crop req) = Absent ->
  generateMockForecast rand env req s =
  (let '(r, s') := generateMockForecast rand env
         {| req_crop := "Rice"; req_district := req_district req;
            req_season := req_season req; req_quantity := req_quantity req |} s in
   (match r with Ok f => Ok (with_crop (req_crop req) f) | Err e => Err e end, s')).
Proof.
  intros Hc. unfold generateMockForecast, baseQuantity_of.
  assert (Hp : crop_params (req_crop req) = crop_params "Rice")
    by (unfold crop_params; rewrite Hc; reflexivity).
  rewrite Hp. cbn [req_crop req_district req_season req_quantity].
  destruct (crop_params "Rice") as [[bp v] dm].
  unfold mbind.
  destruct (trend_loop rand _ bp v 0 30 empty_trends s) as [[t | e] s1]; [| reflexivity].
  destruct (obj_lookup marketsByDistrict (req_district req)); cbn [mret mthrow];
    [| reflexivity |];
    destruct (generateMarketHeatmap rand _ s1) as [[heat | e] s2]; reflexivity.
Qed.

End MockOutcome.

Section MockExtras.
Context {N : Type} `{JsNum N} `{JsMath N}.
Variable rand : nat -> N.

(** A crop missing from the [crops] table (and not a member of
    [Object.prototype]) is forecast with the parameters of ["Rice"]: from
    the same random state the run ends in the same state, fails with the
    same error, or gives the same quantity, demand and price series, glut
    risk, dates, recommended quantity, suggested markets and heatmap as for
    ["Rice"]. (The crop field differs, and so does the action summary,
    which names the crop.) *)
Theorem mock_unknown_crop_as_rice (env : Env) (req : ForecastRequest N) (s : nat) :
  obj_lookup crops (req_crop req) = Absent ->
  let rice := {| req_crop := "Rice"; req_district := req_district req;
                 req_season := req_season req; req_quantity := req_quantity req |} in
  snd (generateMockForecast rand env req s) = snd (generateMockForecast rand env rice s) /\
  match fst (generateMockForecast rand env req s), fst (generateMockForecast rand env rice s) with
  | Ok f, Ok g =>
    fc_quantity f = fc_quantity g /\ fc_demandTrend f = fc_demandTrend g /\
    fc_priceTrend f = fc_priceTrend g /\ fc_glutRisk f = fc_glutRisk g /\
    fc_optimalPlantingTime f = fc_optimalPlantingTime g /\
    fc_optimalSellingTime f = fc_optimalSellingTime g /\
    fc_recommendedQuantity f = fc_recommendedQuantity g /\
    fc_suggestedMarkets f = fc_suggestedMarkets g /\ fc_marketHeatmap f = fc_marketHeatmap g
  | Err e, Err e' => e = e'
  | _, _ => False
  end.
Proof.
  intros Hc rice. rewrite (mock_unknown_crop_params_rice rand env req s Hc).
  fold rice. destruct (generateMockForecast rand env rice s) as [[g | e] s'];
    cbn [fst snd with_crop fc_quantity fc_demandTrend fc_priceTrend fc_glutRisk
         fc_optimalPlantingTime fc_optimalSellingTime fc_recommendedQuantity
         fc_suggestedMarkets fc_marketHeatmap];
    repeat split.
Qed.

(** The mock generator fails exactly when the district is the name of a
    member of [Object.prototype] (with a [TypeError]); for every other
    district it returns a forecast. *)
Theorem mock_fails_iff_proto_district (env : Env) (req : ForecastRequest N) (s : nat) :
  (is_proto_member (req_district req) = true ->
   fst (generateMockForecast rand env req s) = Err TypeError) /\
  (is_proto_member (req_district req) = false ->
   exists f s', generateMockForecast rand env req s = (Ok f, s')).
Proof. exact (mock_outcome_by_district rand env req s). Qed.

(** The mock's suggested markets are the district's list in
    [marketsByDistrict], or the Karnataka list for a district not in it;
    its heatmap has one record per suggested market, in order, with that
    name, demand ["high"], risk ["low"] first and ["medium"] after; and it
    has no [markets] field. *)
Theorem mock_markets_for_district (env : Env) (req : ForecastRequest N) (s : nat) f s' :
  generateMockForecast rand env req s = (Ok f, s') ->
  let names := match assoc (req_district req) marketsByDistrict with
               | Some l => l
               | None => ["KR Market"; "Yeshwantpur Market"; "Bangalore Central Market"]
               end in
  fc_suggestedMarkets f = JArr (map JStr names) /\
  map mk_name (fc_marketHeatmap f) = map JStr names /\
  Forall (fun m => mk_demand m = "high") (fc_marketHeatmap f) /\
  map mk_risk (fc_marketHeatmap f) = ["low"; "medium"; "medium"] /\
  fc_markets f = None.
Proof.
  unfold generateMockForecast.
  destruct (crop_params (req_crop req)) as [[bp v] dm].
  unfold mbind at 1.
  destruct (trend_loop rand _ bp v 0 30 empty_trends s) as [[t | e] s1];
    [| intros Hrun; discriminate Hrun].
  destruct (is_proto_member (req_district req)) eqn:Hd.
  { unfold obj_lookup. rewrite (proto_member_not_district _ Hd), Hd.
    intros Hrun. discriminate Hrun. }
  rewrite (district_lookup_cases _ Hd). cbv zeta.
  destruct (assoc (req_district req) marketsByDistrict) as [l |] eqn:El.
  - assert (Hlen : List.length l = 3).
    { unfold marketsByDistrict in El. cbn [assoc] in El.
      repeat match type of El with
             | (if ?b then _ else _) = _ => destruct b; [injection El as <-; reflexivity |]
             end; discriminate El. }
    unfold mbind, mret, generateMarketHeatmap.
    destruct (heatmap_loop_strings rand l 0 s1) as (heat & s2 & Hh & Hn & Hdm & Hr).
    rewrite Hh. intros Hrun. apply ok_pair_inj in Hrun. subst f.
    cbn [fc_suggestedMarkets fc_marketHeatmap fc_markets].
    rewrite Hlen in Hr. repeat split; assumption.
  - unfold mbind, mret, generateMarketHeatmap.
    destruct (heatmap_loop_strings rand ["KR Market"; "Yeshwantpur Market";
                "Bangalore Central Market"] 0 s1) as (heat & s2 & Hh & Hn & Hdm & Hr).
    rewrite Hh. intros Hrun. apply ok_pair_inj in Hrun. subst f.
    cbn [fc_suggestedMarkets fc_marketHeatmap fc_markets].
    repeat split; assumption.
Qed.

End MockExtras.

Section OrchestratorFacts.
Context {N : Type} `{JsNum N} `{JsMath N}.
Variable rand : nat -> N.

Lemma trend_of_length (trend : jsval N) (k : string) (t : TrendSeries N) :
  trend_of trend k = Ok t ->
  exists items, trend = JArr items /\ List.length (day30 t) = List.length items.
Proof.
  unfold trend_of, slice_map. destruct trend; cbn [rbind]; try discriminate.
  destruct (map_get (firstn 7 l) k); cbn [rbind]; [| discriminate].
  destruct (map_get (firstn 14 l) k); cbn [rbind]; [| discriminate].
  destruct (map_get l k) as [d30 |] eqn:E; cbn [rbind]; [| discriminate].
  intros Ht. injection Ht as <-. exists l. split; [reflexivity |]. cbn [day30].
  clear - E. revert d30 E. induction l as [| x l IH]; intros d30 E.
  - cbn in E. injection E as <-. reflexivity.
  - cbn [map_get] in E. destruct (js_get x k); cbn [rbind] in E; [| discriminate].
    destruct (map_get l k) as [vs |] eqn:E'; cbn [rbind] in E; [| discriminate].
    injection E as <-. cbn. f_equal. exact (IH _ eq_refl).
Qed.

(** What a successful [formatForecastResponse] reads off its input. *)
Lemma format_ok_inv (data : jsval N) (req : ForecastRequest N) s f s' :
  formatForecastResponse rand data req s = (Ok f, s') ->
  exists trend g l ms,
    js_get data "forecast_trend" = Ok trend /\
    trend_of trend "expected_demand_kg" = Ok (fc_demandTrend f) /\
    trend_of trend "expected_price_per_kg" = Ok (fc_priceTrend f) /\
    js_get data "glut_risk" = Ok (JStr g) /\ fc_glutRisk f = to_lower g /\
    js_get data "suggested_markets" = Ok (JArr l) /\ fc_suggestedMarkets f = JArr l /\
    fc_markets f = Some ms /\ List.length ms = List.length l /\
    List.length (fc_marketHeatmap f) = List.length l /\
    fc_source f = "gemini-ai" /\ fc_crop f = req_crop req /\
    fc_district f = req_district req /\ fc_season f = req_season req.
Proof.
  unfold formatForecastResponse, mbind at 1, mlift.
  destruct (js_get data "forecast_trend") as [trend | e] eqn:E1; cbn [rbind];
    [| intros Hrun; discriminate Hrun].
  destruct (trend_of trend "expected_demand_kg") as [dt | e] eqn:E2; cbn [rbind];
    [| intros Hrun; discriminate Hrun].
  destruct (trend_of trend "expected_price_per_kg") as [pt | e] eqn:E3; cbn [rbind];
    [| intros Hrun; discriminate Hrun].
  destruct (js_get data "glut_risk") as [gr | e] eqn:E4; cbn [rbind];
    [| intros Hrun; discriminate Hrun].
  destruct gr as [| | | | g | | | |]; cbn [rbind]; try (intros Hrun; discriminate Hrun).
  destruct (js_get data "optimal_planting_time") as [pl | e]; cbn [rbind];
    [| intros Hrun; discriminate Hrun].
  destruct (js_get data "optimal_selling_time") as [se | e]; cbn [rbind];
    [| intros Hrun; discriminate Hrun].
  destruct (js_get data "recommended_quantity_kg") as [rq | e]; cbn [rbind];
    [| intros Hrun; discriminate Hrun].
  destruct (js_get data "suggested_markets") as [sm | e] eqn:E5; cbn [rbind];
    [| intros Hrun; discriminate Hrun].
  destruct (js_get data "action_summary") as [a | e]; cbn [rbind];
    [| intros Hrun; discriminate Hrun].
  destruct (ensure (to_string_ok pl)); cbn [rbind]; [| intros Hrun; discriminate Hrun].
  destruct (ensure (to_string_ok se)); cbn [rbind]; [| intros Hrun; discriminate Hrun].
  destruct (ensure (to_string_ok rq)); cbn [rbind]; [| intros Hrun; discriminate Hrun].
  destruct sm as [| | | | | l | | |]; cbn [rbind]; try (intros Hrun; discriminate Hrun).
  destruct (ensure (forallb to_string_ok l)); cbn [rbind]; [| intros Hrun; discriminate Hrun].
  unfold mbind, generateMarketHeatmap.
  destruct (heatmap_loop rand l 0 s) as [[m1 | e] s1] eqn:H1; [| intros Hrun; discriminate Hrun].
  destruct (heatmap_loop rand l 0 s1) as [[m2 | e] s2] eqn:H2; [| intros Hrun; discriminate Hrun].
  unfold mret. intros Hrun. apply ok_pair_inj in Hrun. subst f.
  exists trend, g, l, m1. cbn [fc_demandTrend fc_priceTrend fc_glutRisk fc_suggestedMarkets
    fc_markets fc_marketHeatmap fc_source fc_crop fc_district fc_season].
  rewrite (heatmap_loop_length _ _ _ _ _ _ H1), (heatmap_loop_length _ _ _ _ _ _ H2).
  repeat split; assumption.
Qed.

(** When [suggested_markets] is not an array, [formatForecastResponse] fails
    before drawing any random number. *)
Lemma format_nonarray_markets_fails (data : jsval N) (req : ForecastRequest N) (s : nat) v :
  js_get data "suggested_markets" = Ok v -> (forall l, v <> JArr l) ->
  exists e, formatForecastResponse rand data req s = (Err e, s).
Proof.
  intros Hsm Hv. unfold formatForecastResponse, mbind at 1, mlift.
  rewrite Hsm.
  destruct (js_get data "forecast_trend") as [trend | e]; cbn [rbind]; [| eauto].
  destruct (trend_of trend "expected_demand_kg") as [dt | e]; cbn [rbind]; [| eauto].
  destruct (trend_of trend "expected_price_per_kg") as [pt | e]; cbn [rbind]; [| eauto].
  destruct (js_get data "glut_risk") as [gr | e]; cbn [rbind]; [| eauto].
  destruct gr; cbn [rbind]; try eauto.
  destruct (js_get data "optimal_planting_time") as [pl | e]; cbn [rbind]; [| eauto].
  destruct (js_get data "optimal_selling_time") as [se | e]; cbn [rbind]; [| eauto].
  destruct (js_get data "recommended_quantity_kg") as [rq | e]; cbn [rbind]; [| eauto].
  destruct (js_get data "action_summary") as [a | e]; cbn [rbind]; [| eauto].
  destruct (ensure (to_string_ok pl)); cbn [rbind]; [| eauto].
  destruct (ensure (to_string_ok se)); cbn [rbind]; [| eauto].
  destruct (ensure (to_string_ok rq)); cbn [rbind]; [| eauto].
  destruct v as [| | | | | l | | |]; cbn [rbind]; eauto.
  exfalso. exact (Hv l eq_refl).
Qed.

Lemma ai_path_ok_inv (env : Env) (req : ForecastRequest N) s f s' :
  ai_path rand env req s = (Ok f, s') ->
  exists r data, ai_outcome env = Ok r /\ JSON_parse (cleanJsonResponse r) = Ok data /\
    validateForecastData data = Ok tt /\ formatForecastResponse rand data req s = (Ok f, s').
Proof.
  unfold ai_path, mbind at 1, mlift at 1.
  destruct (ai_outcome env) as [r | e] eqn:Eo; [| intros Hrun; discriminate Hrun].
  unfold mbind at 1, mlift at 1.
  destruct (JSON_parse (cleanJsonResponse r)) as [data | e] eqn:Ep; [| intros Hrun; discriminate Hrun].
  unfold mbind at 1, mlift at 1.
  destruct (validateForecastData data) as [[] | e] eqn:Ev; [| intros Hrun; discriminate Hrun].
  intros Hrun. exists r, data. repeat split; assumption.
Qed.

(** On an object, a validated reply has a non-empty [forecast_trend] array
    and a [glut_risk] among ["Low"], ["Medium"], ["High"]. *)
Lemma validate_ok_fields (data : jsval N) :
  validateForecastData data = Ok tt ->
  exists it items g, js_get data "forecast_trend" = Ok (JArr (it :: items)) /\
    js_get data "glut_risk" = Ok (JStr g) /\ In g ["Low"; "Medium"; "High"].
Proof.
  intros Hv. destruct data as [| | | | | | ps | |]; try discriminate Hv.
  pose proof Hv as Hv'. rewrite validate_obj_eq in Hv. cbv zeta in Hv.
  rewrite !js_get_plain by reflexivity.
  destruct (negb (truthy (item_value "forecast_trend" ps))); [discriminate Hv |].
  destruct (negb (truthy (item_value "glut_risk" ps))); [discriminate Hv |].
  destruct (item_value "forecast_trend" ps) as [| | | | | [| it items] | | |]; try discriminate Hv.
  destruct (item_value "glut_risk" ps) as [| | | | g | | | |]; try discriminate Hv.
  exists it, items, g. repeat split.
  destruct (existsb (String.eqb g) _) eqn:Eg; [| discriminate Hv].
  apply existsb_exists in Eg. destruct Eg as (x & Hx & Hgx).
  apply String.eqb_eq in Hgx. subst x. exact Hx.
Qed.

Lemma generateForecast_ok_cases (env : Env) (req : ForecastRequest N) s f s' :
  generateForecast rand env req s = (Ok f, s') ->
  (ai_path rand env req s = (Ok f, s') /\ fc_source f = "gemini-ai") \/
  (fc_source f = "mock-data" /\ exists s0, generateMockForecast rand env req s0 = (Ok f, s')).
Proof.
  unfold generateForecast. intros Hrun.
  assert (Hmock : forall s0, generateMockForecast rand env req s0 = (Ok f, s') ->
            fc_source f = "mock-data" /\ exists s1, generateMockForecast rand env req s1 = (Ok f, s')).
  { intros s0 Hm. split; [| exists s0; exact Hm].
    destruct (generateMockForecast_inv rand env req s0 f s' Hm) as (_ & _ & _ & _ & _ & _ & _ & _ & _ & _ & _ & Hs).
    exact Hs. }
  destruct (isAvailable env); cbn [negb] in Hrun.
  - destruct (ai_path rand env req s) as [[g | e] s1] eqn:Ea.
    + injection Hrun as <- <-. left. split; [reflexivity |].
      destruct (ai_path_ok_inv env req s g s1 Ea) as (r & data & _ & _ & _ & Hf).
      destruct (format_ok_inv data req s g s1 Hf) as (_ & _ & _ & _ & _ & _ & _ & _ & _ & _ & _ & _ & _ & _ & Hsrc & _ & _ & _).
      exact Hsrc.
    + right. exact (Hmock s1 Hrun).
  - right. exact (Hmock s Hrun).
Qed.

Lemma generateForecast_err_inv (env : Env) (req : ForecastRequest N) s e s' :
  generateForecast rand env req s = (Err e, s') ->
  is_proto_member (req_district req) = true /\ e = TypeError.
Proof.
  unfold generateForecast. intros Hrun.
  assert (Hm : forall s0, generateMockForecast rand env req s0 = (Err e, s') ->
            is_proto_member (req_district req) = true /\ e = TypeError).
  { intros s0 Hs0. destruct (mock_outcome_by_district rand env req s0) as [Hp Hn].
    destruct (is_proto_member (req_district req)).
    - split; [reflexivity |]. specialize (Hp eq_refl). rewrite Hs0 in Hp. cbn in Hp.
      injection Hp as ->. reflexivity.
    - destruct (Hn eq_refl) as (f & s1 & Hf). rewrite Hs0 in Hf. discriminate Hf. }
  destruct (isAvailable env); cbn [negb] in Hrun.
  - destruct (ai_path rand env req s) as [[g | e'] s1]; [discriminate Hrun | exact (Hm s1 Hrun)].
  - exact (Hm s Hrun).
Qed.

End OrchestratorFacts.

Section OrchestratorExtras.
Context {N : Type} `{JsNum N} `{JsMath N}.
Variable rand : nat -> N.

(** When the AI path fails before any random number is drawn (the call
    fails or times out, the cleaned reply is not JSON, it fails validation,
    or its [suggested_markets] is not an array), [generateForecast] returns
    exactly what the mock generator returns from the same random stream. *)
Theorem generateForecast_early_failure_is_mock (env : Env) (req : ForecastRequest N) (s : nat) :
  isAvailable env = true ->
  ((exists e, ai_outcome env = Err e) \/
   (exists r e, ai_outcome env = Ok r /\ JSON_parse (cleanJsonResponse r) = Err e) \/
   (exists r data e, ai_outcome env = Ok r /\ JSON_parse (cleanJsonResponse r) = Ok data /\
      validateForecastData data = Err e) \/
   (exists r data v, ai_outcome env = Ok r /\ JSON_parse (cleanJsonResponse r) = Ok data /\
      validateForecastData data = Ok tt /\ js_get data "suggested_markets" = Ok v /\
      forall l, v <> JArr l)) ->
  generateForecast rand env req s = generateMockForecast rand env req s.
Proof.
  intros Hav Hfail. unfold generateForecast. rewrite Hav. cbn [negb].
  unfold ai_path, mbind at 1, mlift at 1.
  destruct Hfail as [(e & He) | [(r & e & Hr & Hp) | [(r & data & e & Hr & Hp & Hv) |
                     (r & data & v & Hr & Hp & Hv & Hsm & Hnot)]]].
  - rewrite He. reflexivity.
  - rewrite Hr. unfold mbind at 1, mlift at 1. rewrite Hp. reflexivity.
  - rewrite Hr. unfold mbind at 1, mlift at 1. rewrite Hp.
    unfold mbind at 1, mlift at 1. rewrite Hv. reflexivity.
  - rewrite Hr. unfold mbind at 1, mlift at 1. rewrite Hp.
    unfold mbind at 1, mlift at 1. rewrite Hv.
    destruct (format_nonarray_markets_fails rand data req s v Hsm Hnot) as (e & He).
    rewrite He. reflexivity.
Qed.

(** A forecast from the AI path has a glut risk among ["low"], ["medium"],
    ["high"], a non-empty 30-day demand series with as many prices, one
    [markets] record and one heatmap record per suggested market, the
    request's crop, district and season, and the source ["gemini-ai"]. *)
Theorem ai_path_forecast_shape (env : Env) (req : ForecastRequest N) s f s' :
  ai_path rand env req s = (Ok f, s') ->
  In (fc_glutRisk f) ["low"; "medium"; "high"] /\
  day30 (fc_demandTrend f) <> [] /\
  List.length (day30 (fc_demandTrend f)) = List.length (day30 (fc_priceTrend f)) /\
  (exists l ms, fc_suggestedMarkets f = JArr l /\ fc_markets f = Some ms /\
     List.length ms = List.length l /\ List.length (fc_marketHeatmap f) = List.length l) /\
  fc_crop f = req_crop req /\ fc_district f = req_district req /\
  fc_season f = req_season req /\ fc_source f = "gemini-ai".
Proof.
  intros Hrun. destruct (ai_path_ok_inv rand env req s f s' Hrun) as (r & data & _ & _ & Hv & Hf).
  destruct (validate_ok_fields data Hv) as (it & items & g & Ht & Hg & Hin).
  destruct (format_ok_inv rand data req s f s' Hf)
    as (trend & g' & l & ms & Ht' & Hd & Hp & Hg' & Hlow & Hsm & Hsm' & Hms & Hlm & Hlh & Hsrc & Hc & Hdi & Hse).
  rewrite Ht in Ht'. injection Ht' as <-. rewrite Hg in Hg'. injection Hg' as <-.
  destruct (trend_of_length _ _ _ Hd) as (i1 & E1 & L1).
  destruct (trend_of_length _ _ _ Hp) as (i2 & E2 & L2).
  injection E1 as <-. injection E2 as <-.
  repeat split.
  - rewrite Hlow. destruct Hin as [<- | [<- | [<- | []]]]; cbn; auto.
  - intros Hnil. rewrite Hnil in L1. discriminate L1.
  - congruence.
  - exists l, ms. repeat split; assumption.
  - exact Hc.
  - exact Hdi.
  - exact Hse.
  - exact Hsrc.
Qed.

(** Every forecast [generateForecast] returns is either the AI path's
    result, tagged ["gemini-ai"], or a result of the mock generator from some
    random state, tagged ["mock-data"]. *)
Theorem generateForecast_source_tags_path (env : Env) (req : ForecastRequest N) s f s' :
  generateForecast rand env req s = (Ok f, s') ->
  (ai_path rand env req s = (Ok f, s') /\ fc_source f = "gemini-ai") \/
  (fc_source f = "mock-data" /\ exists s0, generateMockForecast rand env req s0 = (Ok f, s')).
Proof. exact (generateForecast_ok_cases rand env req s f s'). Qed.

(** [generateForecast] fails only when the district is the name of a member
    of [Object.prototype], and then with a [TypeError]. *)
Theorem generateForecast_fails_only_on_proto_district (env : Env) (req : ForecastRequest N) s e s' :
  generateForecast rand env req s = (Err e, s') ->
  is_proto_member (req_district req) = true /\ e = TypeError.
Proof. exact (generateForecast_err_inv rand env req s e s'). Qed.

End OrchestratorExtras.


Section SimulationFacts.
Context {N : Type} `{JsNum N} `{JsMath N} `{JsSqrt N} `{JsConv N}.
Variable rand : nat -> N.

Lemma rbind_err_inv {A B : Type} (r : result A) (f : A -> result B) e :
  rbind r f = Err e -> r = Err e \/ exists a, r = Ok a /\ f a = Err e.
Proof. destruct r as [a | e']; cbn; [right; eauto | intros He; left; injection He as ->; reflexivity]. Qed.

(** [String(v)] only ever throws a [TypeError]. *)
Lemma to_key_err : forall (v : jsval N) e, to_key v = Err e -> e = TypeError.
Proof.
  fix IH 1. intros v e. destruct v as [| | | | | l | ps | |]; cbn [to_key];
    try discriminate.
  - intros Hr. apply rbind_err_inv in Hr.
    destruct Hr as [Hr | (ks & _ & Hr)]; [| discriminate Hr].
    revert e Hr. revert l. fix IHl 1. intros [| x l] e Ek.
    + discriminate Ek.
    + cbn in Ek. pose proof (IH x) as IHx. destruct x; try (apply rbind_err_inv in Ek;
        destruct Ek as [Ek | (ks & _ & Ek)]; [exact (IHl l e Ek) | discriminate Ek]);
      (apply rbind_err_inv in Ek; destruct Ek as [Ek | (k & _ & Ek)];
       [exact (IHx e Ek) |];
       apply rbind_err_inv in Ek; destruct Ek as [Ek | (ks & _ & Ek)];
       [exact (IHl l e Ek) | discriminate Ek]).
  - destruct (assoc "toString" ps); [intros Hr; injection Hr as <-; reflexivity | discriminate].
Qed.

Lemma to_primitive_err (v : jsval N) e : to_primitive v = Err e -> e = TypeError.
Proof.
  destruct v; cbn [to_primitive]; try discriminate;
    intros Hr; apply rbind_err_inv in Hr; destruct Hr as [Hr | (k & _ & Hr)];
    solve [exact (to_key_err _ _ Hr) | discriminate Hr].
Qed.

Lemma to_number_err (v : jsval N) e : to_number v = Err e -> e = TypeError.
Proof.
  unfold to_number. intros Hr. apply rbind_err_inv in Hr.
  destruct Hr as [Hr | (p & _ & Hr)]; [exact (to_primitive_err _ _ Hr) | discriminate Hr].
Qed.

Lemma js_plus_err (a b : jsval N) e : js_plus a b = Err e -> e = TypeError.
Proof.
  unfold js_plus. intros Hr.
  apply rbind_err_inv in Hr as [Hr | (pa & Ha & Hr)]; [exact (to_primitive_err _ _ Hr) |].
  apply rbind_err_inv in Hr as [Hr | (pb & Hb & Hr)]; [exact (to_primitive_err _ _ Hr) |].
  destruct (is_jstr pa || is_jstr pb).
  - apply rbind_err_inv in Hr as [Hr | (sa & _ & Hr)]; [exact (to_key_err _ _ Hr) |].
    apply rbind_err_inv in Hr as [Hr | (sb & _ & Hr)]; [exact (to_key_err _ _ Hr) | discriminate Hr].
  - apply rbind_err_inv in Hr as [Hr | (x & _ & Hr)]; [exact (to_number_err _ _ Hr) |].
    apply rbind_err_inv in Hr as [Hr | (y & _ & Hr)]; [exact (to_number_err _ _ Hr) | discriminate Hr].
Qed.

Lemma js_sum_err (l : list (jsval N)) : forall acc e, js_sum acc l = Err e -> e = TypeError.
Proof.
  induction l as [| v l IH]; intros acc e Hr; cbn [js_sum] in Hr; [discriminate Hr |].
  apply rbind_err_inv in Hr as [Hr | (acc' & _ & Hr)]; [exact (js_plus_err _ _ _ Hr) | exact (IH _ _ Hr)].
Qed.

Lemma sq_sum_err (m : N) (l : list (jsval N)) : forall acc e,
  (fix sq_sum (acc : N) (l : list (jsval N)) : result N :=
     match l with
     | [] => Ok acc
     | b :: rest => x <- to_number b ;; sq_sum (jadd acc (jmul (jsub x m) (jsub x m))) rest
     end) acc l = Err e -> e = TypeError.
Proof.
  induction l as [| v l IH]; intros acc e Hr; [discriminate Hr |].
  apply rbind_err_inv in Hr as [Hr | (x & _ & Hr)]; [exact (to_number_err _ _ Hr) | exact (IH _ _ Hr)].
Qed.

Lemma calculateVolatility_values_err (l : list (jsval N)) e :
  calculateVolatility_values l = Err e -> e = TypeError.
Proof.
  unfold calculateVolatility_values. intros Hr.
  apply rbind_err_inv in Hr as [Hr | (total & _ & Hr)]; [exact (js_sum_err _ _ _ Hr) |].
  apply rbind_err_inv in Hr as [Hr | (t & _ & Hr)]; [exact (to_number_err _ _ Hr) |].
  cbv zeta in Hr.
  apply rbind_err_inv in Hr as [Hr | (sq & _ & Hr)]; [exact (sq_sum_err _ _ _ _ Hr) | discriminate Hr].
Qed.

Lemma calculateRevenue_err (f : Forecast N) (req : ForecastRequest N) e :
  calculateRevenue f req = Err e -> e = TypeError.
Proof.
  unfold calculateRevenue. intros Hr.
  apply rbind_err_inv in Hr as [Hr | (total & _ & Hr)]; [exact (js_sum_err _ _ _ Hr) |].
  apply rbind_err_inv in Hr as [Hr | (t & _ & Hr)]; [exact (to_number_err _ _ Hr) |].
  apply rbind_err_inv in Hr as [Hr | (q & _ & Hr)]; [exact (to_number_err _ _ Hr) | discriminate Hr].
Qed.

Lemma calculateProfit_err (f : Forecast N) (req : ForecastRequest N) e :
  calculateProfit f req = Err e -> e = TypeError.
Proof.
  unfold calculateProfit. intros Hr.
  apply rbind_err_inv in Hr as [Hr | (r & _ & Hr)]; [exact (calculateRevenue_err _ _ _ Hr) |].
  apply rbind_err_inv in Hr as [Hr | (q & _ & Hr)]; [exact (to_number_err _ _ Hr) | discriminate Hr].
Qed.

Lemma assessRisk_err (f : Forecast N) (req : ForecastRequest N) e :
  assessRisk f req = Err e -> e = TypeError.
Proof.
  unfold assessRisk. intros Hr.
  apply rbind_err_inv in Hr as [Hr | (v & _ & Hr)];
    [exact (calculateVolatility_values_err _ _ Hr) | discriminate Hr].
Qed.

(** On numbers, [+] and the reductions are the numeric ones. *)
Lemma js_sum_nums (ps : list N) : forall a, js_sum (JNum a) (map JNum ps) = Ok (JNum (fold_left jadd ps a)).
Proof. induction ps as [| p ps IH]; intros a; [reflexivity | exact (IH (jadd a p))]. Qed.

Lemma sq_sum_nums (m : N) (ps : list N) : forall acc,
  (fix sq_sum (acc : N) (l : list (jsval N)) : result N :=
     match l with
     | [] => Ok acc
     | b :: rest => x <- to_number b ;; sq_sum (jadd acc (jmul (jsub x m) (jsub x m))) rest
     end) acc (map JNum ps) =
  Ok (fold_left (fun a b => jadd a (jmul (jsub b m) (jsub b m))) ps acc).
Proof. induction ps as [| p ps IH]; intros acc; [reflexivity | exact (IH _)]. Qed.

Lemma calculateVolatility_values_nums (ps : list N) :
  calculateVolatility_values (map JNum ps) = Ok (calculateVolatility ps).
Proof.
  unfold calculateVolatility_values. rewrite js_sum_nums. cbn [rbind to_number to_primitive].
  cbv zeta. rewrite sq_sum_nums. cbn [rbind].
  unfold calculateVolatility, volatility_of, js_length. rewrite length_map. reflexivity.
Qed.

Lemma calculateRevenue_nums (f : Forecast N) (req : ForecastRequest N) ps q :
  day30 (fc_priceTrend f) = map JNum ps -> sim_quantity f req = JNum q ->
  calculateRevenue f req = Ok (jround (jmul (jdiv (fold_left jadd ps (jlit 0%Q)) (jlit 30%Q)) q)).
Proof.
  intros Hp Hq. unfold calculateRevenue. rewrite Hp, js_sum_nums, Hq. reflexivity.
Qed.

Lemma assessRisk_nums (f : Forecast N) (req : ForecastRequest N) ps :
  day30 (fc_priceTrend f) = map JNum ps ->
  assessRisk f req =
  Ok {| rf_glutRisk := fc_glutRisk f; rf_marketVolatility := calculateVolatility ps;
        rf_seasonalFactor := if String.eqb (req_season req) "Kharif" then "medium" else "low" |}.
Proof. intros Hp. unfold assessRisk. rewrite Hp, calculateVolatility_values_nums. reflexivity. Qed.

(** [generateSimulation] runs [generateForecast] and then the three
    predictions, which draw no random number. *)
Lemma generateSimulation_eq (env : Env) (req : ForecastRequest N) (mc : jsval N) s :
  generateSimulation rand env req mc s =
  match generateForecast rand env req s with
  | (Ok f, s') =>
    (revenue <- calculateRevenue f req ;;
     profit <- calculateProfit f req ;;
     risk <- assessRisk f req ;;
     Ok {| sim_forecast := f; sim_type := "scenario-analysis";
           sim_marketChoice := if truthy mc then mc else JStr "Local Market";
           sim_revenue := revenue; sim_profit := profit; sim_risk := risk |}, s')
  | (Err e, s') => (Err e, s')
  end.
Proof.
  unfold generateSimulation, mbind, mlift, mret.
  destruct (generateForecast rand env req s) as [[f | e] s']; [| reflexivity].
  destruct (calculateRevenue f req); [| reflexivity].
  destruct (calculateProfit f req); [| reflexivity].
  destruct (assessRisk f req); reflexivity.
Qed.

(** A mock forecast carries numbers for its prices and its recommended
    quantity. *)
Lemma mock_forecast_numeric (env : Env) (req : ForecastRequest N) s f s' :
  generateMockForecast rand env req s = (Ok f, s') ->
  exists ps q, day30 (fc_priceTrend f) = map JNum ps /\ sim_quantity f req = JNum q.
Proof.
  intros Hm. destruct (generateMockForecast_inv rand env req s f s' Hm)
    as (bd & bp & v & t & s1 & _ & _ & _ & Hp & _ & Hr & _).
  exists (p30 t). rewrite Hp. cbn [day30]. unfold sim_quantity. rewrite Hr.
  destruct (req_quantity req) as [q |]; [destruct (jtruthy q) |]; eauto.
Qed.

End SimulationFacts.

Section SimulationStrings.
Context {N : Type} `{JsNum N} `{JsMath N} `{JsSqrt N} `{JsConv N}.

Lemma str_app_nil (a : string) : (a ++ "")%string = a.
Proof. induction a as [| x a IH]; cbn; [reflexivity | now rewrite IH]. Qed.

Lemma concat_empty_cons (x : string) (xs : list string) :
  String.concat "" (x :: xs) = (x ++ String.concat "" xs)%string.
Proof. destruct xs as [| y ys]; cbn; [now rewrite str_app_nil | reflexivity]. Qed.

(** Once the accumulator is a string, [+] concatenates the strings. *)
Lemma js_sum_strs (xs : list string) : forall acc : string,
  js_sum (JStr acc : jsval N) (map JStr xs) = Ok (JStr (acc ++ String.concat "" xs)%string).
Proof.
  induction xs as [| x xs IH]; intros acc.
  - cbn. now rewrite str_app_nil.
  - cbn [map js_sum]. unfold js_plus. cbn [to_primitive rbind is_jstr orb to_key].
    rewrite IH, concat_empty_cons, str_app_assoc. reflexivity.
Qed.

End SimulationStrings.

Section SimulationExtras.
Context {N : Type} `{JsNum N} `{JsMath N} `{JsSqrt N} `{JsConv N}.
Variable rand : nat -> N.

(** When the forecast's 30-day prices are numbers [ps] and the quantity
    used ([inputData.quantity] if truthy, else the forecast's recommended
    quantity) is a number [q], [generateSimulation] returns the forecast
    with revenue [round(sum ps / 30 * q)], whatever the length of [ps],
    profit [round(revenue - 10 q)], the volatility bucket of [ps], and
    draws no random number beyond the forecast's. *)
Theorem simulation_numeric_predictions (env : Env) (req : ForecastRequest N) (mc : jsval N)
    s f s' (ps : list N) (q : N) :
  generateForecast rand env req s = (Ok f, s') ->
  day30 (fc_priceTrend f) = map JNum ps ->
  sim_quantity f req = JNum q ->
  let revenue := jround (jmul (jdiv (fold_left jadd ps (jlit 0%Q)) (jlit 30%Q)) q) in
  generateSimulation rand env req mc s =
  (Ok {| sim_forecast := f; sim_type := "scenario-analysis";
         sim_marketChoice := if truthy mc then mc else JStr "Local Market";
         sim_revenue := revenue;
         sim_profit := jround (jsub revenue (jmul q (jlit 10%Q)));
         sim_risk := {| rf_glutRisk := fc_glutRisk f;
                        rf_marketVolatility := calculateVolatility ps;
                        rf_seasonalFactor :=
                          if String.eqb (req_season req) "Kharif" then "medium" else "low" |} |},
   s').
Proof.
  intros Hf Hp Hq revenue. rewrite generateSimulation_eq, Hf.
  rewrite (calculateRevenue_nums f req ps q Hp Hq). cbn [rbind].
  unfold calculateProfit. rewrite (calculateRevenue_nums f req ps q Hp Hq), Hq. cbn [rbind to_number to_primitive].
  rewrite (assessRisk_nums f req ps Hp). reflexivity.
Qed.

(** [generateSimulation] fails only with a [TypeError], and only when the
    forecast fails (a district named after a member of [Object.prototype])
    or when the forecast came from the AI reply: on a mock forecast the
    predictions never fail. *)
Theorem simulation_failure_sources (env : Env) (req : ForecastRequest N) (mc : jsval N) s e s' :
  generateSimulation rand env req mc s = (Err e, s') ->
  e = TypeError /\
  ((generateForecast rand env req s = (Err e, s') /\ is_proto_member (req_district req) = true) \/
   (exists f, generateForecast rand env req s = (Ok f, s') /\ fc_source f = "gemini-ai")).
Proof.
  rewrite generateSimulation_eq. intros Hrun.
  destruct (generateForecast rand env req s) as [[f | e'] s1] eqn:Ef.
  - assert (He : e = TypeError /\ s1 = s').
    { destruct (calculateRevenue f req) as [r | er] eqn:Er; cbn [rbind] in Hrun;
        [| injection Hrun as <- <-; split; [exact (calculateRevenue_err _ _ _ Er) | reflexivity]].
      destruct (calculateProfit f req) as [p | ep] eqn:Ep; cbn [rbind] in Hrun;
        [| injection Hrun as <- <-; split; [exact (calculateProfit_err _ _ _ Ep) | reflexivity]].
      destruct (assessRisk f req) as [k | ek] eqn:Ek; cbn [rbind] in Hrun;
        [discriminate Hrun | injection Hrun as <- <-; split; [exact (assessRisk_err _ _ _ Ek) | reflexivity]]. }
    destruct He as [-> ->]. split; [reflexivity |]. right. exists f. split; [reflexivity |].
    destruct (generateForecast_ok_cases rand env req s f s' Ef) as [[_ Hs] | [_ (s0 & Hm)]];
      [exact Hs |].
    exfalso. destruct (mock_forecast_numeric rand env req s0 f s' Hm) as (ps & q & Hp & Hq).
    revert Hrun. rewrite (calculateRevenue_nums f req ps q Hp Hq). cbn [rbind].
    unfold calculateProfit. rewrite (calculateRevenue_nums f req ps q Hp Hq), Hq.
    cbn [rbind to_number to_primitive]. rewrite (assessRisk_nums f req ps Hp). discriminate.
  - injection Hrun as <- <-.
    destruct (generateForecast_err_inv rand env req s e' s1 Ef) as [Hd ->].
    split; [reflexivity |]. left. split; [reflexivity | exact Hd].
Qed.

(** When the forecast's 30-day prices are all strings (a reply whose
    [expected_price_per_kg] values are strings passes validation), the
    [reduce] concatenates them after ["0"] instead of adding them, and the
    revenue is [round(Number("0" + p1 + p2 + ...) / 30 * q)]. *)
Theorem calculateRevenue_string_prices (f : Forecast N) (req : ForecastRequest N)
    (xs : list string) (q : N) :
  day30 (fc_priceTrend f) = map JStr xs -> xs <> [] -> sim_quantity f req = JNum q ->
  calculateRevenue f req =
  Ok (jround (jmul (jdiv (jstring_to_number (jstr (jlit 0%Q) ++ String.concat "" xs)%string)
                         (jlit 30%Q)) q)).
Proof.
  intros Hp Hne Hq. unfold calculateRevenue. rewrite Hp, Hq.
  destruct xs as [| x xs]; [contradiction Hne; reflexivity |].
  cbn [map js_sum]. unfold js_plus at 1. cbn [to_primitive rbind is_jstr orb to_key].
  rewrite js_sum_strs, concat_empty_cons, str_app_assoc. reflexivity.
Qed.

End SimulationExtras.

Section VolatilityScale.
Local Open Scope R_scope.

Lemma fold_plus_scale (c : R) (l : list R) : forall a,
  fold_left Rplus (map (Rmult c) l) (c * a) = c * fold_left Rplus l a.
Proof.
  induction l as [| x l IH]; intros a; cbn [map fold_left]; [reflexivity |].
  rewrite <- Rmult_plus_distr_l. apply IH.
Qed.

Lemma fold_sq_scale (c m : R) (l : list R) : forall a,
  fold_left (fun a b => a + (b - c * m) * (b - c * m)) (map (Rmult c) l) (c * c * a) =
  c * c * fold_left (fun a b => a + (b - m) * (b - m)) l a.
Proof.
  induction l as [| x l IH]; intros a; cbn [map fold_left]; [reflexivity |].
  replace (c * c * a + (c * x - c * m) * (c * x - c * m))
    with (c * c * (a + (x - m) * (x - m))) by ring.
  apply IH.
Qed.

Lemma Rdiv_scale (c a b : R) : c <> 0 -> (c * a) / (c * b) = a / b.
Proof.
  intros Hc. unfold Rdiv. rewrite Rinv_mult.
  replace (c * a * (/ c * / b)) with (a * / b * (c * / c)) by ring.
  rewrite Rinv_r by exact Hc. ring.
Qed.

End VolatilityScale.

Section VolatilityScaleExtras.
Local Open Scope R_scope.

(** Multiplying every price by the same positive factor (a change of
    currency or unit) never changes the volatility bucket: [stdDev / mean]
    is scale-free. *)
Theorem calculateVolatility_scale_invariant (c : R) (prices : list R) :
  0 < c -> calculateVolatility (map (Rmult c) prices) = calculateVolatility prices.
Proof.
  intros Hc.
  assert (Hv : volatility_of (map (Rmult c) prices) = volatility_of prices).
  { rewrite !volatility_of_R, length_map.
    pose proof (fold_plus_scale c prices 0) as Hs. rewrite Rmult_0_r in Hs. rewrite Hs.
    set (n := INR (List.length prices)).
    set (S := fold_left Rplus prices 0).
    replace (c * S / n) with (c * (S / n)) by (unfold Rdiv; ring).
    pose proof (fold_sq_scale c (S / n) prices 0) as Hq. rewrite Rmult_0_r in Hq. rewrite Hq.
    set (X := fold_left (fun a b => a + (b - S / n) * (b - S / n)) prices 0).
    replace (c * c * X / n) with ((c * c) * (X / n)) by (unfold Rdiv; ring).
    rewrite sqrt_mult_alt by nra. rewrite sqrt_square by lra.
    apply Rdiv_scale. lra. }
  unfold calculateVolatility. rewrite Hv. reflexivity.
Qed.

End VolatilityScaleExtras.

(** ** Instances of the further properties *)

Lemma mock_unknown_crop_as_rice_witness :
  let env := sample_env false (Err AITimeout) utc_zone in
  let rice := {| req_crop := "Rice"; req_district := "Mysore"; req_season := "Kharif";
                 req_quantity := Some 100%Q |} in
  obj_lookup crops "Mango" = Absent /\
  snd (generateMockForecast sample_rand env (sample_request "Mango" "Mysore") O) =
  snd (generateMockForecast sample_rand env rice O) /\
  match fst (generateMockForecast sample_rand env (sample_request "Mango" "Mysore") O),
        fst (generateMockForecast sample_rand env rice O) with
  | Ok f, Ok g =>
    fc_quantity f = fc_quantity g /\ fc_demandTrend f = fc_demandTrend g /\
    fc_priceTrend f = fc_priceTrend g /\ fc_glutRisk f = fc_glutRisk g /\
    fc_optimalPlantingTime f = fc_optimalPlantingTime g /\
    fc_optimalSellingTime f = fc_optimalSellingTime g /\
    fc_recommendedQuantity f = fc_recommendedQuantity g /\
    fc_suggestedMarkets f = fc_suggestedMarkets g /\ fc_marketHeatmap f = fc_marketHeatmap g
  | Err e, Err e' => e = e'
  | _, _ => False
  end.
Proof.
  intros env rice. split; [reflexivity |].
  exact (mock_unknown_crop_as_rice sample_rand env (sample_request "Mango" "Mysore") O eq_refl).
Defined.

Lemma mock_markets_for_district_witness :
  exists f s', generateMockForecast sample_rand (sample_env false (Err AITimeout) utc_zone)
                 (sample_request "Tomato" "Mysore") O = (Ok f, s') /\
  let names := match assoc "Mysore" marketsByDistrict with
               | Some l => l
               | None => ["KR Market"; "Yeshwantpur Market"; "Bangalore Central Market"]
               end in
  fc_suggestedMarkets f = JArr (map JStr names) /\
  map mk_name (fc_marketHeatmap f) = map JStr names /\
  Forall (fun m => mk_demand m = "high") (fc_marketHeatmap f) /\
  map mk_risk (fc_marketHeatmap f) = ["low"; "medium"; "medium"] /\
  fc_markets f = None.
Proof.
  destruct (generateMockForecast sample_rand (sample_env false (Err AITimeout) utc_zone)
              (sample_request "Tomato" "Mysore") O) as [[f | e] s'] eqn:E.
  - exists f, s'. split; [reflexivity | exact (mock_markets_for_district _ _ _ _ _ _ E)].
  - vm_compute in E. discriminate E.
Defined.

Lemma generateForecast_early_failure_is_mock_witness :
  isAvailable (sample_env true (Ok "Sorry, I cannot help with that.") utc_zone) = true /\
  (exists r e, ai_outcome (sample_env true (Ok "Sorry, I cannot help with that.") utc_zone) = Ok r /\
     JSON_parse (N := Q) (cleanJsonResponse r) = Err e) /\
  generateForecast sample_rand (sample_env true (Ok "Sorry, I cannot help with that.") utc_zone)
    (sample_request "Rice" "Mysore") O =
  generateMockForecast sample_rand (sample_env true (Ok "Sorry, I cannot help with that.") utc_zone)
    (sample_request "Rice" "Mysore") O.
Proof.
  assert (Hp : exists r e, ai_outcome (sample_env true (Ok "Sorry, I cannot help with that.") utc_zone) = Ok r /\
     JSON_parse (N := Q) (cleanJsonResponse r) = Err e)
    by (exists "Sorry, I cannot help with that."%string, SyntaxError; split; reflexivity).
  split; [reflexivity |]. split; [exact Hp |].
  apply (generateForecast_early_failure_is_mock sample_rand); [reflexivity |].
  right. left. exact Hp.
Defined.

Lemma ai_path_forecast_shape_witness :
  exists f s', ai_path sample_rand (sample_env true (Ok (sample_reply "20" "22")) utc_zone)
                 (sample_request "Rice" "Mysore") O = (Ok f, s') /\
  In (fc_glutRisk f) ["low"; "medium"; "high"] /\
  day30 (fc_demandTrend f) <> [] /\
  List.length (day30 (fc_demandTrend f)) = List.length (day30 (fc_priceTrend f)) /\
  (exists l ms, fc_suggestedMarkets f = JArr l /\ fc_markets f = Some ms /\
     List.length ms = List.length l /\ List.length (fc_marketHeatmap f) = List.length l) /\
  fc_crop f = "Rice" /\ fc_district f = "Mysore" /\ fc_season f = "Kharif" /\ fc_source f = "gemini-ai".
Proof.
  destruct (ai_path sample_rand (sample_env true (Ok (sample_reply "20" "22")) utc_zone)
              (sample_request "Rice" "Mysore") O) as [[f | e] s'] eqn:E.
  - exists f, s'. split; [reflexivity | exact (ai_path_forecast_shape _ _ _ _ _ _ E)].
  - vm_compute in E. discriminate E.
Defined.

Lemma generateForecast_source_tags_path_witness :
  exists f s', generateForecast sample_rand (sample_env true (Ok (sample_reply "20" "22")) utc_zone)
                 (sample_request "Rice" "Mysore") O = (Ok f, s') /\
  ((ai_path sample_rand (sample_env true (Ok (sample_reply "20" "22")) utc_zone)
      (sample_request "Rice" "Mysore") O = (Ok f, s') /\ fc_source f = "gemini-ai") \/
   (fc_source f = "mock-data" /\
    exists s0, generateMockForecast sample_rand (sample_env true (Ok (sample_reply "20" "22")) utc_zone)
                 (sample_request "Rice" "Mysore") s0 = (Ok f, s'))).
Proof.
  destruct (generateForecast sample_rand (sample_env true (Ok (sample_reply "20" "22")) utc_zone)
              (sample_request "Rice" "Mysore") O) as [[f | e] s'] eqn:E.
  - exists f, s'. split; [reflexivity | exact (generateForecast_source_tags_path _ _ _ _ _ _ E)].
  - vm_compute in E. discriminate E.
Defined.

Lemma generateForecast_fails_only_on_proto_district_witness :
  exists e s', generateForecast sample_rand (sample_env false (Err AITimeout) utc_zone)
                 (sample_request "Rice" "constructor") O = (Err e, s') /\
  is_proto_member "constructor" = true /\ e = TypeError.
Proof.
  destruct (generateForecast sample_rand (sample_env false (Err AITimeout) utc_zone)
              (sample_request "Rice" "constructor") O) as [[f | e] s'] eqn:E.
  - vm_compute in E. discriminate E.
  - exists e, s'. split; [reflexivity | exact (generateForecast_fails_only_on_proto_district _ _ _ _ _ _ E)].
Defined.

Lemma simulation_numeric_predictions_witness :
  exists f s', generateForecast sample_rand (sample_env true (Ok (sample_reply "20" "22")) utc_zone)
                 (sample_request "Rice" "Mysore") O = (Ok f, s') /\
  day30 (fc_priceTrend f) = map JNum [20%Q; 22%Q] /\
  sim_quantity f (sample_request "Rice" "Mysore") = JNum 100%Q /\
  let revenue := jround (jmul (jdiv (fold_left jadd [20%Q; 22%Q] (jlit 0%Q)) (jlit 30%Q)) 100%Q) in
  generateSimulation sample_rand (sample_env true (Ok (sample_reply "20" "22")) utc_zone)
    (sample_request "Rice" "Mysore") JUndef O =
  (Ok {| sim_forecast := f; sim_type := "scenario-analysis";
         sim_marketChoice := JStr "Local Market";
         sim_revenue := revenue;
         sim_profit := jround (jsub revenue (jmul 100%Q (jlit 10%Q)));
         sim_risk := {| rf_glutRisk := fc_glutRisk f;
                        rf_marketVolatility := calculateVolatility [20%Q; 22%Q];
                        rf_seasonalFactor := "medium" |} |}, s').
Proof.
  destruct (generateForecast sample_rand (sample_env true (Ok (sample_reply "20" "22")) utc_zone)
              (sample_request "Rice" "Mysore") O) as [[f | e] s'] eqn:E;
    [| vm_compute in E; discriminate E].
  pose proof E as E'. vm_compute in E'. injection E' as Ef _.
  assert (Hp : day30 (fc_priceTrend f) = map JNum [20%Q; 22%Q]) by (subst f; reflexivity).
  assert (Hq : sim_quantity f (sample_request "Rice" "Mysore") = JNum 100%Q) by (subst f; reflexivity).
  exists f, s'. split; [reflexivity |]. split; [exact Hp |]. split; [exact Hq |].
  exact (simulation_numeric_predictions sample_rand _ _ JUndef _ _ _ _ _ E Hp Hq).
Defined.

Lemma simulation_failure_sources_witness :
  exists e s', generateSimulation sample_rand (sample_env false (Err AITimeout) utc_zone)
                 (sample_request "Rice" "constructor") (JStr "KR Market") O = (Err e, s') /\
  e = TypeError /\
  ((generateForecast sample_rand (sample_env false (Err AITimeout) utc_zone)
      (sample_request "Rice" "constructor") O = (Err e, s') /\ is_proto_member "constructor" = true) \/
   (exists f, generateForecast sample_rand (sample_env false (Err AITimeout) utc_zone)
                (sample_request "Rice" "constructor") O = (Ok f, s') /\ fc_source f = "gemini-ai")).
Proof.
  destruct (generateSimulation sample_rand (sample_env false (Err AITimeout) utc_zone)
              (sample_request "Rice" "constructor") (JStr "KR Market") O) as [[r | e] s'] eqn:E.
  - vm_compute in E. discriminate E.
  - exists e, s'. split; [reflexivity | exact (simulation_failure_sources _ _ _ _ _ _ _ E)].
Defined.

Lemma calculateRevenue_string_prices_witness :
  exists f s', generateForecast sample_rand
                 (sample_env true (Ok (sample_reply (quote "20") (quote "22"))) utc_zone)
                 (sample_request "Rice" "Mysore") O = (Ok f, s') /\
  day30 (fc_priceTrend f) = map JStr ["20"; "22"] /\ ["20"; "22"] <> [] /\
  sim_quantity f (sample_request "Rice" "Mysore") = JNum 100%Q /\
  calculateRevenue f (sample_request "Rice" "Mysore") =
  Ok (jround (jmul (jdiv (jstring_to_number (jstr (jlit 0%Q) ++ String.concat "" ["20"; "22"])%string)
                         (jlit 30%Q)) 100%Q)).
Proof.
  destruct (generateForecast sample_rand
              (sample_env true (Ok (sample_reply (quote "20") (quote "22"))) utc_zone)
              (sample_request "Rice" "Mysore") O) as [[f | e] s'] eqn:E;
    [| vm_compute in E; discriminate E].
  pose proof E as E'. vm_compute in E'. injection E' as Ef _.
  assert (Hp : day30 (fc_priceTrend f) = map JStr ["20"; "22"]) by (subst f; reflexivity).
  assert (Hne : ["20"; "22"] <> @nil string) by discriminate.
  assert (Hq : sim_quantity f (sample_request "Rice" "Mysore") = JNum 100%Q) by (subst f; reflexivity).
  exists f, s'. split; [reflexivity |]. split; [exact Hp |]. split; [exact Hne |]. split; [exact Hq |].
  exact (calculateRevenue_string_prices f _ _ _ Hp Hne Hq).
Defined.

Section VolatilityScaleWitness.
Local Open Scope R_scope.

Lemma calculateVolatility_scale_invariant_witness :
  0 < 2 /\ calculateVolatility (map (Rmult 2) [20; 22; 25]) = calculateVolatility [20; 22; 25].
Proof. split; [lra | apply calculateVolatility_scale_invariant; lra]. Defined.

End VolatilityScaleWitness.
